(** * Price prediction pipeline: services/analytics/src/ml/price_prediction.py

    A shallow embedding of [PricePredictionModel]: feature derivation in
    [fetch_training_data], windowing in [prepare_data], [train],
    [predict_next] and [_calculate_confidence].

    Python floats are IEEE binary64, so they are Rocq's primitive floats and
    every arithmetic step below rounds as the interpreter does.  The two
    third-party collaborators of the class, the Keras model and sklearn's
    MinMaxScaler, are interfaces ([SequenceEngine], [Normalizer]); the Redis
    client is a finite map of keys with their time to live next to the
    sorted sets that hold the order-book history.  A call takes the reading
    of [datetime.now()] as its argument [now], in milliseconds.  The calls
    of the logger touch neither the instance nor the store and are left
    out. *)

From Stdlib Require Import PrimFloat SpecFloat FloatOps FloatAxioms ZArith List Ascii String Lia.
From stdpp Require Import gmap strings.

Local Open Scope Z_scope.
Set Warnings "-inexact-float".

(** ** Exceptions and results *)

Inductive exn : Type :=
  | AttributeError | KeyError | IndexError | ValueError | OverflowError
  | ZeroDivisionError | NotFittedError | OSError | EngineFailure.

Inductive result (A : Type) : Type :=
  | Ok (a : A)
  | Raise (e : exn).
Arguments Ok {A} a.
Arguments Raise {A} e.

#[export] Instance result_ret : MRet result := fun A a => Ok a.
#[export] Instance result_bind : MBind result := fun A B f r =>
  match r with
  | Ok a => f a
  | Raise e => Raise e
  end.

(** [self.attr] on an object under construction. *)
Definition getattr {A} (o : option A) : result A :=
  match o with
  | Some a => Ok a
  | None => Raise AttributeError
  end.

(** ** Numbers as Python has them *)

(** [a / b] on Python floats: a zero divisor of either sign raises. *)
Definition py_div (a b : float) : result float :=
  if PrimFloat.eqb b 0%float then Raise ZeroDivisionError
  else Ok (a / b)%float.

(** [int(f)]: truncation towards zero. *)
Definition py_int (f : float) : result Z :=
  match Prim2SF f with
  | S754_zero _ => Ok 0
  | S754_infinity _ => Raise OverflowError
  | S754_nan => Raise ValueError
  | S754_finite s m e =>
      let z := if 0 <=? e then Z.pos m * 2 ^ e else Z.pos m / 2 ^ (- e) in
      Ok (if s then - z else z)
  end.

(** [float(n)] for a length. *)
Definition float_of_nat (n : nat) : float :=
  PrimFloat.of_uint63 (Uint63Axioms.of_Z (Z.of_nat n)).

(** [l[-1]] *)
Definition last_item {A} (l : list A) : result A :=
  match last l with
  | Some a => Ok a
  | None => Raise IndexError
  end.

(** [l[a:b]] for indices that are not negative. *)
Definition slice {A} (l : list A) (a b : nat) : list A :=
  take (b - a) (drop a l).

(** [df.tail(n)] *)
Definition tail {A} (n : nat) (l : list A) : list A :=
  drop (length l - n) l.

(** [str.lower], on the ASCII letters. *)
Definition lower_ascii (c : ascii) : ascii :=
  let n := nat_of_ascii c in
  if ((65 <=? n) && (n <=? 90))%nat then ascii_of_nat (n + 32) else c.

Fixpoint lower (s : string) : string :=
  match s with
  | EmptyString => EmptyString
  | String c s' => String (lower_ascii c) (lower s')
  end.

(** ** Data model *)

(** The object [json.loads(item)] gives for one member of the history. *)
Record OrderBookRecord : Type := {
  timestamp : Z;
  price : float;
  volume : float;
  bid_price : float;
  ask_price : float;
  bid_volume : float;
  ask_volume : float;
}.

(** One entry of [parsed_data]. *)
Record FeatureRow : Type := {
  f_timestamp : Z;
  f_price : float;
  f_volume : float;
  f_bid_ask_spread : float;
  f_mid_price : float;
  f_imbalance : float;
}.

Abbreviation DataFrame := (list FeatureRow).

(** A row of [df[['price', 'volume', 'bid_ask_spread', 'mid_price',
    'imbalance']].values]: five columns, price first. *)
Record FeatureVector : Type := {
  v_price : float;
  v_volume : float;
  v_bid_ask_spread : float;
  v_mid_price : float;
  v_imbalance : float;
}.

Abbreviation FeatureMatrix := (list FeatureVector).

Definition values (df : DataFrame) : FeatureMatrix :=
  map (fun r => {| v_price := f_price r; v_volume := f_volume r;
                   v_bid_ask_spread := f_bid_ask_spread r;
                   v_mid_price := f_mid_price r;
                   v_imbalance := f_imbalance r |}) df.

Record TrainingMetrics : Type := {
  m_venue : string;
  m_symbol : string;
  m_loss : float;
  m_val_loss : float;
  m_timestamp : Z;
  m_data_points : nat;
}.

Record Prediction : Type := {
  venue : string;
  symbol : string;
  current_price : float;
  predicted_price : float;
  price_change : float;
  percent_change : float;
  prediction_time : Z;
  time_horizon_minutes : Z;
  confidence : string;
}.

(** ** The Redis client *)

(** A member of a sorted set as the parsing loop sees it: [Some r] when
    [json.loads] and the seven field reads succeed, [None] when one of them
    raises. *)
Abbreviation raw_item := (option OrderBookRecord).

(** What [json.dumps] wrote under a key. *)
Inductive json_doc : Type :=
  | JMetrics (m : TrainingMetrics)
  | JPrediction (p : Prediction).

(** Modelled from the spec: the ArtifactStore of section 4.5 (the Redis
    server behind [redis_client], an external collaborator): a range query
    over a time-ordered series per key, set and get of one value by key, and
    expiring a key after N seconds. *)
Record Store : Type := {
  zsets : gmap string (list (Z * raw_item));
  keys : gmap string (json_doc * option Z);
}.

Definition zrangebyscore (r : Store) (key : string) (lo hi : Z) : list raw_item :=
  map snd (filter (fun e => lo <= fst e <= hi) (default [] (zsets r !! key))).

Definition redis_set (key : string) (v : json_doc) (r : Store) : Store :=
  {| zsets := zsets r; keys := <[key := (v, None)]> (keys r) |}.

Definition redis_expire (key : string) (seconds : Z) (r : Store) : Store :=
  {| zsets := zsets r; keys := alter (fun e => (fst e, Some seconds)) key (keys r) |}.

Definition redis_get (r : Store) (key : string) : option json_doc :=
  fst <$> keys r !! key.

Definition redis_ttl (r : Store) (key : string) : option Z :=
  keys r !! key ≫= snd.

(** ** fetch_training_data *)

Definition json_loads (item : raw_item) : result OrderBookRecord :=
  match item with
  | Some r => Ok r
  | None => Raise KeyError
  end.

(** The body of the parsing loop: the dictionary appended for one item. *)
Definition parse_item (item : raw_item) : result FeatureRow :=
  record ← json_loads item;
  imbalance ← py_div (bid_volume record) (bid_volume record + ask_volume record)%float;
  mret {| f_timestamp := timestamp record;
          f_price := price record;
          f_volume := volume record;
          f_bid_ask_spread := (ask_price record - bid_price record)%float;
          f_mid_price := ((ask_price record + bid_price record) / 2)%float;
          f_imbalance := imbalance |}.

(** [for item in raw_data: parsed_data.append(...)] *)
Fixpoint parse_loop (raw_data : list raw_item) (parsed_data : list FeatureRow)
  : result (list FeatureRow) :=
  match raw_data with
  | [] => Ok parsed_data
  | item :: rest =>
      row ← parse_item item;
      parse_loop rest (parsed_data ++ [row])
  end.

Definition ms_per_day : Z := 86400000.

Definition data_key (venue symbol : string) : string :=
  "orderbook:" +:+ lower venue +:+ ":" +:+ lower symbol +:+ ":summary".

(** [now] is what [datetime.now()] reads, in milliseconds.  The [try] of
    the source turns every exception into [None]. *)
Definition fetch_training_data (redis_client : Store) (now : Z)
    (venue symbol : string) (lookback_days : Z) : option DataFrame :=
  let end_key := now in
  let start_key := now - lookback_days * ms_per_day in
  let raw_data := zrangebyscore redis_client (data_key venue symbol) start_key end_key in
  match raw_data with
  | [] => None
  | _ =>
      match parse_loop raw_data [] with
      | Ok parsed_data => Some parsed_data
      | Raise _ => None
      end
  end.

(** ** _calculate_confidence *)

Definition _calculate_confidence (percent_change : float) : string :=
  let abs_change := PrimFloat.abs percent_change in
  if (5.0 <? abs_change)%float then "low"
  else if (2.0 <? abs_change)%float then "medium"
  else "high".

(** ** The collaborators of the class *)

(** [history.history] of a Keras fit. *)
Record History : Type := {
  loss : list float;
  val_loss : list float;
}.

(** sklearn's [MinMaxScaler(feature_range=(0, 1))].  [fit_transform]
    leaves a new scaler state behind, also when it raises. *)
Class Normalizer (Scaler : Type) : Type := {
  MinMaxScaler : Scaler;
  fit_transform : Scaler -> FeatureMatrix -> Scaler * result FeatureMatrix;
  transform : Scaler -> FeatureMatrix -> result FeatureMatrix;
  inverse_transform : Scaler -> list (list float) -> result (list (list float));
}.

(** The Keras model: [Sequential (s, n)] is the compiled LSTM stack of
    [_build_model] for [input_shape=(s, n)]; [fit] updates the parameters in
    place and may raise; [predict] gives one output row per window. *)
Class SequenceEngine (Model : Type) : Type := {
  Sequential : nat * nat -> Model;
  load_model : string -> result Model;
  fit : Model -> list FeatureMatrix -> list float -> Z -> Z ->
        list FeatureMatrix * list float -> Model * result History;
  predict : Model -> list FeatureMatrix -> result (list (list float));
}.

(** A constructed instance.  [redis_client] is a reference to the shared
    store, which [World] keeps next to the instance. *)
Record PricePredictionModel (Scaler Model : Type) : Type := {
  scaler : Scaler;
  model : Model;
  sequence_length : nat;
}.
Arguments scaler {Scaler Model} _.
Arguments model {Scaler Model} _.
Arguments sequence_length {Scaler Model} _.

Record World (Scaler Model : Type) : Type := {
  self : PricePredictionModel Scaler Model;
  redis_client : Store;
}.
Arguments self {Scaler Model} _.
Arguments redis_client {Scaler Model} _.

(** The attributes assigned so far on an instance inside [__init__]. *)
Record Attributes (Scaler Model : Type) : Type := {
  attr_scaler : option Scaler;
  attr_model : option Model;
  attr_sequence_length : option nat;
}.
Arguments attr_scaler {Scaler Model} _.
Arguments attr_model {Scaler Model} _.
Arguments attr_sequence_length {Scaler Model} _.

(** [np.hstack([a, np.zeros((a.shape[0], n))])] *)
Definition hstack_zeros (a : list (list float)) (n : nat) : list (list float) :=
  map (fun row => row ++ replicate n 0%float) a.

(** [a[:, 0]] *)
Definition column0 (a : list (list float)) : result (list float) :=
  mapM (fun row => match row with
                   | x :: _ => Ok x
                   | [] => Raise IndexError
                   end) a.

(** [l[i]] for an index that is not negative. *)
Definition item {A} (l : list A) (i : nat) : result A :=
  match l !! i with
  | Some a => Ok a
  | None => Raise IndexError
  end.

Definition range (a b : nat) : list nat := seq a (b - a).

(** [for i in l: st = body(st, i)], stopping at the first exception. *)
Fixpoint for_in {A St : Type} (l : list A) (body : St -> A -> result St) (st : St)
  : result St :=
  match l with
  | [] => Ok st
  | i :: rest => st' ← body st i; for_in rest body st'
  end.

(** The windowing loop of [prepare_data] over [scaled_data]. *)
Definition windows (sequence_length : nat) (scaled_data : FeatureMatrix)
  : result (list FeatureMatrix * list float) :=
  for_in (range sequence_length (length scaled_data))
    (fun '(X, y) i =>
       let X := X ++ [slice scaled_data (i - sequence_length) i] in
       row ← item scaled_data i;
       mret (X, y ++ [v_price row]))
    ([], []).

Section Model.
Context {Scaler Model : Type} `{!Normalizer Scaler} `{!SequenceEngine Model}.

(** *** Construction *)

Definition _build_model (self : Attributes Scaler Model) : result Model :=
  s ← getattr (attr_sequence_length self);
  mret (Sequential (s, 5%nat)).

Definition _load_model (self : Attributes Scaler Model) (path : string) : result Model :=
  match load_model path with
  | Ok m => Ok m
  | Raise _ => _build_model self
  end.

Definition __init__ (model_path : option string)
  : result (PricePredictionModel Scaler Model) :=
  let self : Attributes Scaler Model :=
    {| attr_scaler := None; attr_model := None; attr_sequence_length := None |} in
  let self := {| attr_scaler := Some MinMaxScaler; attr_model := attr_model self;
                 attr_sequence_length := attr_sequence_length self |} in
  m ← match model_path with
      | None => _build_model self
      | Some path => _load_model self path
      end;
  let self := {| attr_scaler := attr_scaler self; attr_model := Some m;
                 attr_sequence_length := attr_sequence_length self |} in
  let self := {| attr_scaler := attr_scaler self; attr_model := attr_model self;
                 attr_sequence_length := Some 60%nat |} in
  sc ← getattr (attr_scaler self);
  m ← getattr (attr_model self);
  s ← getattr (attr_sequence_length self);
  mret {| scaler := sc; model := m; sequence_length := s |}.

(** *** The methods of a constructed instance

    A method runs on the instance and the store and leaves both behind,
    with its value or the exception it raised. *)

Definition M (A : Type) : Type :=
  World Scaler Model -> World Scaler Model * result A.

#[export] Instance M_ret : MRet M := fun A a w => (w, Ok a).
#[export] Instance M_bind : MBind M := fun A B f m w =>
  match m w with
  | (w', Ok a) => f a w'
  | (w', Raise e) => (w', Raise e)
  end.

Definition lift {A} (r : result A) : M A := fun w => (w, r).

Definition gets {A} (f : PricePredictionModel Scaler Model -> A) : M A :=
  fun w => (w, Ok (f (self w))).

(** [try: body  except Exception as e: handler] *)
Definition try_except {A} (body : M A) (handler : exn -> M A) : M A :=
  fun w =>
    match body w with
    | (w', Ok a) => (w', Ok a)
    | (w', Raise e) => handler e w'
    end.

Definition with_redis (f : Store -> Store) : M unit :=
  fun w => ({| self := self w; redis_client := f (redis_client w) |}, Ok tt).

Definition fetch (now : Z) (venue symbol : string) (lookback_days : Z)
  : M (option DataFrame) :=
  fun w => (w, Ok (fetch_training_data (redis_client w) now venue symbol lookback_days)).

(** [self.scaler.fit_transform(data)] *)
Definition scaler_fit_transform (data : FeatureMatrix) : M FeatureMatrix :=
  fun w =>
    let '(sc, r) := fit_transform (scaler (self w)) data in
    ({| self := {| scaler := sc; model := model (self w);
                   sequence_length := sequence_length (self w) |};
        redis_client := redis_client w |}, r).

(** [self.model.fit(X_train, y_train, epochs=.., batch_size=..,
    validation_data=(X_val, y_val))] *)
Definition model_fit (X_train : list FeatureMatrix) (y_train : list float)
    (epochs batch_size : Z) (validation_data : list FeatureMatrix * list float)
  : M History :=
  fun w =>
    let '(m, r) := fit (model (self w)) X_train y_train epochs batch_size
                       validation_data in
    ({| self := {| scaler := scaler (self w); model := m;
                   sequence_length := sequence_length (self w) |};
        redis_client := redis_client w |}, r).

(** [self.scaler.transform(data)] *)
Definition scaler_transform (data : FeatureMatrix) : M FeatureMatrix :=
  fun w => (w, transform (scaler (self w)) data).

(** [self.scaler.inverse_transform(a)] *)
Definition scaler_inverse_transform (a : list (list float)) : M (list (list float)) :=
  fun w => (w, inverse_transform (scaler (self w)) a).

(** [self.model.predict(X)] *)
Definition model_predict (X : list FeatureMatrix) : M (list (list float)) :=
  fun w => (w, predict (model (self w)) X).

Definition prepare_data (df : DataFrame) : M (list FeatureMatrix * list float) :=
  let data := values df in
  scaled_data ← scaler_fit_transform data;
  s ← gets sequence_length;
  lift (windows s scaled_data).

Definition metrics_key (venue symbol : string) : string :=
  "ml:training:metrics:" +:+ lower venue +:+ ":" +:+ lower symbol.

Definition train (now : Z) (venue symbol : string) (epochs batch_size : Z) : M bool :=
  df ← fetch now venue symbol 30;
  s ← gets sequence_length;
  match df with
  | None => mret false
  | Some df =>
      if (length df <? s + 10)%nat then mret false
      else
        '(X, y) ← prepare_data df;
        split_idx ← lift (py_int (float_of_nat (length X) * 0.8)%float);
        let split_idx := Z.to_nat split_idx in
        let '(X_train, X_val) := (take split_idx X, drop split_idx X) in
        let '(y_train, y_val) := (take split_idx y, drop split_idx y) in
        try_except
          (history ← model_fit X_train y_train epochs batch_size (X_val, y_val);
           final_loss ← lift (last_item (loss history));
           final_val_loss ← lift (last_item (val_loss history));
           let training_metrics :=
             {| m_venue := venue; m_symbol := symbol;
                m_loss := final_loss; m_val_loss := final_val_loss;
                m_timestamp := now; m_data_points := length X |} in
           _ ← with_redis (redis_set (metrics_key venue symbol) (JMetrics training_metrics));
           mret true)
          (fun _ => mret false)
  end.

Definition prediction_key (venue symbol : string) : string :=
  "ml:predictions:" +:+ lower venue +:+ ":" +:+ lower symbol.

Definition predict_next (now : Z) (venue symbol : string) (time_horizon_minutes : Z)
  : M (option Prediction) :=
  try_except
    (recent_data ← fetch now venue symbol 1;
     s ← gets sequence_length;
     match recent_data with
     | None => mret None
     | Some recent_data =>
         if (length recent_data <? s)%nat then mret None
         else
           let recent_data := tail s recent_data in
           let data := values recent_data in
           scaled_data ← scaler_transform data;
           let X := [scaled_data] in
           predicted_scaled ← model_predict X;
           inverted ← scaler_inverse_transform (hstack_zeros predicted_scaled 4);
           prices ← lift (column0 inverted);
           predicted_price ← lift (item prices 0);
           last_row ← lift (last_item recent_data);
           let current_price := f_price last_row in
           let price_change := (predicted_price - current_price)%float in
           let percent_change := ((price_change / current_price) * 100)%float in
           let prediction :=
             {| venue := venue; symbol := symbol;
                current_price := current_price;
                predicted_price := predicted_price;
                price_change := price_change;
                percent_change := percent_change;
                prediction_time := now;
                time_horizon_minutes := time_horizon_minutes;
                confidence := _calculate_confidence percent_change |} in
           _ ← with_redis (redis_set (prediction_key venue symbol) (JPrediction prediction));
           _ ← with_redis (redis_expire (prediction_key venue symbol)
                             (60 * time_horizon_minutes));
           mret (Some prediction)
     end)
    (fun _ => mret None).

End Model.

(** ** Running the pipeline: a scaler, an engine and a store *)

(** Modelled from the spec: the Normalizer of section 4.2 (sklearn's
    MinMaxScaler, a third-party class): [fit_transform] stores the minimum
    and maximum of every feature and scales each value to
    [(v - min) / (max - min)], or to 0 when max and min coincide;
    [transform] applies the stored state and fails before any fit;
    [inverse_transform] reverses the scaling. *)
Record ScalerState : Type := {
  data_min : FeatureVector;
  data_max : FeatureVector;
}.

Definition columnwise (f : float -> float -> float) (a b : FeatureVector) : FeatureVector :=
  {| v_price := f (v_price a) (v_price b);
     v_volume := f (v_volume a) (v_volume b);
     v_bid_ask_spread := f (v_bid_ask_spread a) (v_bid_ask_spread b);
     v_mid_price := f (v_mid_price a) (v_mid_price b);
     v_imbalance := f (v_imbalance a) (v_imbalance b) |}.

Definition fmin (a b : float) : float := if (b <? a)%float then b else a.
Definition fmax (a b : float) : float := if (a <? b)%float then b else a.

Definition scale_value (lo hi v : float) : float :=
  if (hi =? lo)%float then 0%float else ((v - lo) / (hi - lo))%float.

Definition unscale_value (lo hi v : float) : float :=
  (v * (hi - lo) + lo)%float.

Definition scale_row (st : ScalerState) (v : FeatureVector) : FeatureVector :=
  {| v_price := scale_value (v_price (data_min st)) (v_price (data_max st)) (v_price v);
     v_volume := scale_value (v_volume (data_min st)) (v_volume (data_max st)) (v_volume v);
     v_bid_ask_spread :=
       scale_value (v_bid_ask_spread (data_min st)) (v_bid_ask_spread (data_max st))
                   (v_bid_ask_spread v);
     v_mid_price :=
       scale_value (v_mid_price (data_min st)) (v_mid_price (data_max st)) (v_mid_price v);
     v_imbalance :=
       scale_value (v_imbalance (data_min st)) (v_imbalance (data_max st)) (v_imbalance v) |}.

Definition unscale_row (st : ScalerState) (row : list float) : result (list float) :=
  match row with
  | [a; b; c; d; e] =>
      Ok [unscale_value (v_price (data_min st)) (v_price (data_max st)) a;
          unscale_value (v_volume (data_min st)) (v_volume (data_max st)) b;
          unscale_value (v_bid_ask_spread (data_min st)) (v_bid_ask_spread (data_max st)) c;
          unscale_value (v_mid_price (data_min st)) (v_mid_price (data_max st)) d;
          unscale_value (v_imbalance (data_min st)) (v_imbalance (data_max st)) e]
  | _ => Raise ValueError
  end.

Definition minmax_fit (data : FeatureMatrix) : option ScalerState :=
  match data with
  | [] => None
  | v :: rest =>
      Some {| data_min := fold_left (columnwise fmin) rest v;
              data_max := fold_left (columnwise fmax) rest v |}
  end.

#[export] Instance minmax_normalizer : Normalizer (option ScalerState) := {
  MinMaxScaler := None;
  fit_transform _ data :=
    match minmax_fit data with
    | Some st => (Some st, Ok (map (scale_row st) data))
    | None => (None, Raise ValueError)
    end;
  transform sc data :=
    match sc with
    | Some st => Ok (map (scale_row st) data)
    | None => Raise NotFittedError
    end;
  inverse_transform sc rows :=
    match sc with
    | Some st => mapM (unscale_row st) rows
    | None => Raise NotFittedError
    end;
}.

(** An engine to run the pipeline with: a model file is found unless it is
    named [missing.h5], the model loaded from [untrainable.h5] raises in
    [fit], and [predict] answers every window with the stored output. *)
Record StubModel : Type := {
  fit_raises : bool;
  output : float;
}.

#[export] Instance stub_engine : SequenceEngine StubModel := {
  Sequential _ := {| fit_raises := false; output := 0.5 |};
  load_model path :=
    if bool_decide (path = "missing.h5") then Raise OSError
    else Ok {| fit_raises := bool_decide (path = "untrainable.h5"); output := 1.5 |};
  fit m _ _ _ _ _ :=
    if fit_raises m then (m, Raise EngineFailure)
    else (m, Ok {| loss := [0.25%float]; val_loss := [0.5%float] |});
  predict m X := Ok (map (fun _ => [output m]) X);
}.

(** A history for BINANCE / BTC-USDT: [n] records, one per millisecond from
    1, all priced 1.0 but the last, priced 3.0. *)
Definition quote (t : Z) (p : float) : OrderBookRecord :=
  {| timestamp := t; price := p; volume := 10;
     bid_price := 1; ask_price := 2; bid_volume := 1; ask_volume := 1 |}.

Definition sample_history (n : nat) : list (Z * raw_item) :=
  map (fun i => (Z.of_nat i, Some (quote (Z.of_nat i) 1))) (seq 1 (n - 1))
  ++ [(Z.of_nat n, Some (quote (Z.of_nat n) 3))].

Definition sample_store (n : nat) : Store :=
  {| zsets := {[ "orderbook:binance:btc-usdt:summary" := sample_history n ]};
     keys := ∅ |}.

(** The world after [PricePredictionModel(r, model_path=path)], when the
    constructor returns. *)
Definition constructed (path : string) (r : Store)
  : option (World (option ScalerState) StubModel) :=
  match __init__ (Some path) with
  | Ok obj => Some {| self := obj; redis_client := r |}
  | Raise _ => None
  end.

(** A history in which the second of three records has no volume on either
    side of the book, and the same history without that record. *)
Definition halted_quote (t : Z) : OrderBookRecord :=
  {| timestamp := t; price := 1; volume := 0;
     bid_price := 1; ask_price := 2; bid_volume := 0; ask_volume := 0 |}.

Definition store_with_halt : Store :=
  {| zsets := {[ "orderbook:binance:btc-usdt:summary" :=
                   [(1, Some (quote 1 1)); (2, Some (halted_quote 2));
                    (3, Some (quote 3 1))] ]};
     keys := ∅ |}.

Definition store_without_halt : Store :=
  {| zsets := {[ "orderbook:binance:btc-usdt:summary" :=
                   [(1, Some (quote 1 1)); (3, Some (quote 3 1))] ]};
     keys := ∅ |}.

(** Three scaled rows, told apart by their price. *)
Definition scaled_row (p : float) : FeatureVector :=
  {| v_price := p; v_volume := 0; v_bid_ask_spread := 0;
     v_mid_price := 0; v_imbalance := 0.5 |}.

Definition three_rows : FeatureMatrix :=
  [scaled_row 0; scaled_row 0.5; scaled_row 1].

(** The scaler state fitted on the 70 sample rows. *)
Definition sample_scaler : ScalerState :=
  {| data_min := {| v_price := 1; v_volume := 10; v_bid_ask_spread := 1;
                    v_mid_price := 1.5; v_imbalance := 0.5 |};
     data_max := {| v_price := 3; v_volume := 10; v_bid_ask_spread := 1;
                    v_mid_price := 1.5; v_imbalance := 0.5 |} |}.

(** The rows [fetch_training_data] makes of [sample_history n]. *)
Definition feature_row (t : Z) (p : float) : FeatureRow :=
  {| f_timestamp := t; f_price := p; f_volume := 10; f_bid_ask_spread := 1;
     f_mid_price := 1.5; f_imbalance := 0.5 |}.

Definition sample_rows (n : nat) : DataFrame :=
  map (fun i => feature_row (Z.of_nat i) 1) (seq 1 (n - 1))
  ++ [feature_row (Z.of_nat n) 3].

(** The instance loaded from [model.h5] over a store with 70 records, the
    same instance after [train('BINANCE', 'BTC-USDT')] at time 100, and the
    prediction it then makes for a horizon of 5 minutes: the scaler was
    fitted on prices from 1.0 to 3.0 and the engine answers 1.5, which
    scales back to 4.0, against a last price of 3.0. *)
Definition ready_world : World (option ScalerState) StubModel :=
  {| self := {| scaler := None;
                model := {| fit_raises := false; output := 1.5 |};
                sequence_length := 60 |};
     redis_client := sample_store 70 |}.

Definition trained_world : World (option ScalerState) StubModel :=
  {| self := {| scaler := Some sample_scaler;
                model := {| fit_raises := false; output := 1.5 |};
                sequence_length := 60 |};
     redis_client :=
       redis_set "ml:training:metrics:binance:btc-usdt"
         (JMetrics {| m_venue := "BINANCE"; m_symbol := "BTC-USDT";
                      m_loss := 0.25; m_val_loss := 0.5;
                      m_timestamp := 100; m_data_points := 10 |})
         (sample_store 70) |}.

Definition sample_prediction : Prediction :=
  {| venue := "BINANCE"; symbol := "BTC-USDT";
     current_price := 3; predicted_price := 4;
     price_change := 1; percent_change := (1 / 3 * 100)%float;
     prediction_time := 100; time_horizon_minutes := 5;
     confidence := "low" |}.

(** The instance loaded from [untrainable.h5] over the same store. *)
Definition untrainable_world : World (option ScalerState) StubModel :=
  {| self := {| scaler := None;
                model := {| fit_raises := true; output := 1.5 |};
                sequence_length := 60 |};
     redis_client := sample_store 70 |}.


(** The dictionary the parsing loop appends for a record whose division
    goes through. *)
Definition features_of (record : OrderBookRecord) : FeatureRow :=
  {| f_timestamp := timestamp record;
     f_price := price record;
     f_volume := volume record;
     f_bid_ask_spread := (ask_price record - bid_price record)%float;
     f_mid_price := ((ask_price record + bid_price record) / 2)%float;
     f_imbalance := (bid_volume record / (bid_volume record + ask_volume record))%float |}.

(** The divisor of the imbalance is not zero. *)
Definition has_volume (record : OrderBookRecord) : bool :=
  negb (bid_volume record + ask_volume record =? 0)%float.

(** A history whose second member is not the JSON of a record. *)
Definition store_with_garbage : Store :=
  {| zsets := {[ "orderbook:binance:btc-usdt:summary" :=
                   [(1, Some (quote 1 1)); (2, None); (3, Some (quote 3 1))] ]};
     keys := ∅ |}.

(** A scaler that rejects what it is given, as sklearn's rejects a matrix
    that holds an infinity. *)
Definition rejecting_normalizer : Normalizer unit :=
  {| MinMaxScaler := tt;
     fit_transform _ _ := (tt, Raise ValueError);
     transform _ _ := Raise ValueError;
     inverse_transform _ _ := Raise ValueError |}.

Definition rejecting_world : World unit StubModel :=
  {| self := {| scaler := tt;
                model := {| fit_raises := false; output := 1.5 |};
                sequence_length := 60 |};
     redis_client := sample_store 70 |}.

(** An engine whose history has one entry per epoch: none for
    [epochs=0]. *)
Definition epoch_engine : SequenceEngine StubModel :=
  {| Sequential _ := {| fit_raises := false; output := 0.5 |};
     load_model path := Ok {| fit_raises := false; output := 1.5 |};
     fit m _ _ epochs _ _ :=
       (m, Ok {| loss := replicate (Z.to_nat epochs) 0.25%float;
                 val_loss := replicate (Z.to_nat epochs) 0.5%float |});
     predict m X := Ok (map (fun _ => [output m]) X) |}.

(** The windows [train] makes of the 70 sample rows: ten of them. *)
Definition sample_scaled : FeatureMatrix :=
  map (scale_row sample_scaler) (values (sample_rows 70)).

Definition sample_X : list FeatureMatrix :=
  map (fun i => slice sample_scaled (i - 60) i) (seq 60 10).

Definition sample_y : list float := map v_price (drop 60 sample_scaled).

Definition sample_metrics : TrainingMetrics :=
  {| m_venue := "BINANCE"; m_symbol := "BTC-USDT";
     m_loss := 0.25; m_val_loss := 0.5;
     m_timestamp := 100; m_data_points := 10 |}.

(** [int(z * 0.8)] is the floor of four fifths of [z], checked for [fuel]
    consecutive lengths from [z] on. *)
Definition split_agrees (z : Z) : bool :=
  match py_int (PrimFloat.of_uint63 (Uint63Axioms.of_Z z) * 0.8)%float with
  | Ok i => i =? 4 * z / 5
  | Raise _ => false
  end.

Fixpoint split_agrees_from (fuel : nat) (z : Z) : bool :=
  match fuel with
  | O => true
  | S fuel' => split_agrees z && split_agrees_from fuel' (z + 1)
  end.

(** Four scaled rows, told apart by their price. *)
Definition four_rows : FeatureMatrix :=
  [scaled_row 0; scaled_row 0.25; scaled_row 0.5; scaled_row 1].

(** * Properties *)

(** ** Results and the loops over them *)

Lemma result_bind_ok {A B} (f : A -> result B) (a : A) : (Ok a ≫= f) = f a.
Proof. reflexivity. Qed.

Lemma result_bind_raise {A B} (f : A -> result B) (e : exn) : (Raise e ≫= f) = Raise e.
Proof. reflexivity. Qed.

Lemma item_lookup {A} (l : list A) (i : nat) (a : A) : l !! i = Some a -> item l i = Ok a.
Proof. intros H. unfold item. by rewrite H. Qed.

(** An item that raises makes the whole parsing loop raise, whatever was
    parsed before it and whatever follows. *)
Lemma parse_loop_raises (raw_data : list raw_item) (it : raw_item) :
  it ∈ raw_data -> (exists e, parse_item it = Raise e) ->
  forall parsed_data, exists e, parse_loop raw_data parsed_data = Raise e.
Proof.
  intros Hin [e He].
  induction raw_data as [|first rest IH]; intros parsed_data.
  - by apply not_elem_of_nil in Hin.
  - simpl. apply elem_of_cons in Hin as [<- | Hin].
    + rewrite He. by exists e.
    + destruct (parse_item first) as [row|e'].
      * rewrite result_bind_ok. by apply IH.
      * by exists e'.
Qed.

Lemma parse_item_zero_volume (r : OrderBookRecord) :
  (bid_volume r + ask_volume r =? 0)%float = true ->
  parse_item (Some r) = Raise ZeroDivisionError.
Proof.
  intros Hz. unfold parse_item, json_loads, py_div.
  rewrite result_bind_ok, Hz. apply result_bind_raise.
Qed.

(** The windowing loop, from any point of its run. *)
Lemma for_in_windows (s : nat) (scaled_data : FeatureMatrix) (n : nat) :
  forall (a : nat) (X : list FeatureMatrix) (y : list float),
    (a + n <= length scaled_data)%nat ->
    for_in (seq a n)
      (fun '(X, y) i =>
         let X := X ++ [slice scaled_data (i - s) i] in
         row ← item scaled_data i;
         mret (X, y ++ [v_price row]))
      (X, y)
    = Ok (X ++ map (fun i => slice scaled_data (i - s) i) (seq a n),
          y ++ map v_price (take n (drop a scaled_data))).
Proof.
  induction n as [|n IH]; intros a X y Hlen.
  - simpl. by rewrite !app_nil_r.
  - destruct (lookup_lt_is_Some_2 scaled_data a) as [row Hrow]; [lia|].
    simpl seq. cbn [for_in]. cbv zeta.
    rewrite (item_lookup _ _ _ Hrow), !result_bind_ok.
    rewrite IH by lia.
    rewrite (drop_S _ _ _ Hrow). simpl.
    by rewrite <- !app_assoc.
Qed.

Lemma windows_eq (s : nat) (scaled_data : FeatureMatrix) :
  windows s scaled_data
  = Ok (map (fun i => slice scaled_data (i - s) i) (seq s (length scaled_data - s)),
        map v_price (drop s scaled_data)).
Proof.
  unfold windows, range.
  destruct (decide (s <= length scaled_data)%nat) as [Hle|Hgt].
  - rewrite for_in_windows by lia. simpl. f_equal. f_equal.
    f_equal. apply take_ge. rewrite length_drop. lia.
  - replace (length scaled_data - s)%nat with 0%nat by lia. simpl.
    by rewrite drop_ge by lia.
Qed.

(** ** Construction *)

Section Construction.
Context {Scaler Model : Type} `{!Normalizer Scaler} `{!SequenceEngine Model}.

Lemma build_model_before_sequence_length (sc : option Scaler) (m : option Model) :
  _build_model {| attr_scaler := sc; attr_model := m; attr_sequence_length := None |}
  = Raise AttributeError.
Proof. reflexivity. Qed.

(** A path that loads gives an instance with an unfitted scaler, the loaded
    model and 60 time steps. *)
Lemma init_loaded (path : string) (m : Model) :
  load_model path = Ok m ->
  __init__ (Some path)
  = Ok {| scaler := MinMaxScaler; model := m; sequence_length := 60 |}.
Proof. intros Hload. unfold __init__, _load_model. by rewrite Hload. Qed.

(** C1 (as the code behaves): construction without a model path raises
    AttributeError, and so does construction with a path whose load fails:
    [_build_model] reads [self.sequence_length], which [__init__] assigns
    only after the model.  No instance results in either case. *)
Theorem init_raises_attribute_error (path : string) :
  __init__ (Scaler := Scaler) (Model := Model) None = Raise AttributeError
  /\ ((exists e, load_model (Model := Model) path = Raise e) ->
      __init__ (Scaler := Scaler) (Model := Model) (Some path) = Raise AttributeError).
Proof.
  split.
  - reflexivity.
  - intros [e Hload]. unfold __init__, _load_model. by rewrite Hload.
Qed.

End Construction.

(** ** Confidence labels *)

(** C3 (as stated, refuted): a percent change of exactly 2.0 is not labelled
    medium. *)
Lemma confidence_at_two_is_not_medium : _calculate_confidence 2.0 <> "medium".
Proof. vm_compute. discriminate. Qed.

(** C3 (amended): by the magnitude of the percent change, exactly 2.0 is
    labelled high, exactly 5.0 medium, every magnitude strictly above 5.0
    low, and 0.0 high. *)
Theorem confidence_boundaries (percent_change : float) :
  _calculate_confidence 2.0 = "high"
  /\ _calculate_confidence 5.0 = "medium"
  /\ ((5.0 <? PrimFloat.abs percent_change)%float = true ->
      _calculate_confidence percent_change = "low")
  /\ _calculate_confidence 0.0 = "high".
Proof.
  repeat split; try reflexivity.
  intros Hgt. unfold _calculate_confidence. by rewrite Hgt.
Qed.

Lemma confidence_boundaries_witness :
  (5.0 <? PrimFloat.abs (-7.5))%float = true /\ _calculate_confidence (-7.5) = "low".
Proof.
  split; [reflexivity|].
  apply (confidence_boundaries (-7.5)). reflexivity.
Defined.

(** The labels between the thresholds: above 2.0 and up to 5.0 is medium, up
    to 2.0 is high. *)
Lemma confidence_medium (percent_change : float) :
  (5.0 <? PrimFloat.abs percent_change)%float = false ->
  (2.0 <? PrimFloat.abs percent_change)%float = true ->
  _calculate_confidence percent_change = "medium".
Proof. intros H5 H2. unfold _calculate_confidence. by rewrite H5, H2. Qed.

Lemma confidence_high (percent_change : float) :
  (2.0 <? PrimFloat.abs percent_change)%float = false ->
  (5.0 <? PrimFloat.abs percent_change)%float = false ->
  _calculate_confidence percent_change = "high".
Proof. intros H2 H5. unfold _calculate_confidence. by rewrite H5, H2. Qed.

(** ** Feature derivation *)

(** C4 (as stated, refuted): the record without volume makes the division
    raise, and the fetch gives no rows at all, although the two records
    around it alone give two rows. *)
Lemma fetch_zero_volume_aborts_extraction :
  (bid_volume (halted_quote 2) + ask_volume (halted_quote 2) =? 0)%float = true
  /\ parse_item (Some (halted_quote 2)) = Raise ZeroDivisionError
  /\ fetch_training_data store_with_halt 100 "BINANCE" "BTC-USDT" 30 = None
  /\ (length <$> fetch_training_data store_without_halt 100 "BINANCE" "BTC-USDT" 30)
     = Some 2%nat.
Proof. vm_compute. done. Qed.

(** C4 (amended): when a fetched record has bid_volume + ask_volume equal
    to zero, the imbalance division raises ZeroDivisionError, the handler of
    fetch_training_data catches it, and the fetch returns None: no feature
    row is produced, for that record or for any other. *)
Theorem fetch_zero_volume_returns_none (redis : Store) (now : Z)
    (venue symbol : string) (lookback_days : Z) (r : OrderBookRecord) :
  Some r ∈ zrangebyscore redis (data_key venue symbol)
             (now - lookback_days * ms_per_day) now ->
  (bid_volume r + ask_volume r =? 0)%float = true ->
  parse_item (Some r) = Raise ZeroDivisionError
  /\ fetch_training_data redis now venue symbol lookback_days = None.
Proof.
  intros Hin Hzero. split; [by apply parse_item_zero_volume|].
  unfold fetch_training_data.
  destruct (zrangebyscore _ _ _ _) as [|first rest] eqn:Hraw.
  - reflexivity.
  - destruct (parse_loop_raises _ _ Hin
                (ex_intro _ _ (parse_item_zero_volume r Hzero)) []) as [e ->].
    reflexivity.
Qed.

Lemma fetch_zero_volume_returns_none_witness :
  parse_item (Some (halted_quote 2)) = Raise ZeroDivisionError
  /\ fetch_training_data store_with_halt 100 "BINANCE" "BTC-USDT" 30 = None.
Proof.
  apply (fetch_zero_volume_returns_none store_with_halt 100 "BINANCE" "BTC-USDT" 30
           (halted_quote 2)).
  - vm_compute. apply list_elem_of_further, list_elem_of_here.
  - reflexivity.
Defined.

(** ** Windowing *)

(** C5: for a scaled matrix of length L and a sequence length S with L > S,
    the windowing loop gives exactly L - S inputs and L - S targets; input i
    is the S rows [i, i+S) of the matrix, in order, and target i is the
    price (column 0) of row i+S. *)
Theorem windows_count_and_alignment (s : nat) (scaled_data : FeatureMatrix) :
  (s < length scaled_data)%nat ->
  exists (X : list FeatureMatrix) (y : list float),
    windows s scaled_data = Ok (X, y)
    /\ length X = (length scaled_data - s)%nat
    /\ length y = (length scaled_data - s)%nat
    /\ forall i : nat, (i < length scaled_data - s)%nat ->
         (exists input : FeatureMatrix,
             X !! i = Some input
             /\ length input = s
             /\ forall j : nat, (j < s)%nat -> input !! j = scaled_data !! (i + j)%nat)
         /\ y !! i = v_price <$> scaled_data !! (i + s)%nat.
Proof.
  intros Hlt. eexists _, _. split; [apply windows_eq|].
  split; [by rewrite length_map, length_seq|].
  split; [by rewrite length_map, length_drop|].
  intros i Hi. split.
  - exists (slice scaled_data i (i + s)).
    split; [|split].
    + change (map ?f ?l) with (f <$> l).
      rewrite list_lookup_fmap, lookup_seq_lt by done. simpl.
      by replace (s + i - s)%nat with i by lia; replace (s + i)%nat with (i + s)%nat by lia.
    + unfold slice. rewrite length_take, length_drop. lia.
    + intros j Hj. unfold slice.
      rewrite lookup_take_lt by lia. by rewrite lookup_drop.
  - change (map ?f ?l) with (f <$> l).
    rewrite list_lookup_fmap, lookup_drop.
    by replace (s + i)%nat with (i + s)%nat by lia.
Qed.

Lemma windows_count_and_alignment_witness :
  exists (X : list FeatureMatrix) (y : list float),
    windows 2 three_rows = Ok (X, y)
    /\ length X = (length three_rows - 2)%nat
    /\ length y = (length three_rows - 2)%nat
    /\ forall i : nat, (i < length three_rows - 2)%nat ->
         (exists input : FeatureMatrix,
             X !! i = Some input
             /\ length input = 2%nat
             /\ forall j : nat, (j < 2)%nat -> input !! j = three_rows !! (i + j)%nat)
         /\ y !! i = v_price <$> three_rows !! (i + 2)%nat.
Proof. apply (windows_count_and_alignment 2 three_rows). simpl. lia. Defined.

(** On the three rows, windows of two: one input, the first two rows, and
    one target, the price of the third. *)
Example windows_three_rows :
  windows 2 three_rows = Ok ([[scaled_row 0; scaled_row 0.5]], [1%float]).
Proof. reflexivity. Qed.

(** ** Keys *)

Lemma lower_ascii_idempotent (c : ascii) : lower_ascii (lower_ascii c) = lower_ascii c.
Proof. by destruct c as [[] [] [] [] [] [] [] []]. Qed.

(** [lower] is a canonical form: lowering twice changes nothing, so names
    that differ in the case of their letters share their keys. *)
Lemma lower_idempotent (s : string) : lower (lower s) = lower s.
Proof.
  induction s as [|c s IH]; [reflexivity|].
  simpl. by rewrite lower_ascii_idempotent, IH.
Qed.

Lemma prediction_key_canonical (venue symbol : string) :
  prediction_key (lower venue) (lower symbol) = prediction_key venue symbol.
Proof. unfold prediction_key. by rewrite !lower_idempotent. Qed.

Example prediction_key_binance :
  prediction_key "BINANCE" "BTC-USDT" = "ml:predictions:binance:btc-usdt".
Proof. reflexivity. Qed.

(** ** Train and predict *)

Section Methods.
Context {Scaler Model : Type} `{!Normalizer Scaler} `{!SequenceEngine Model}.
Implicit Types w : World Scaler Model.

Lemma M_bind_ok {A B} (m : M A) (f : A -> M B) w w' (a : A) :
  m w = (w', Ok a) -> (m ≫= f) w = f a w'.
Proof. intros Hm. unfold mbind, M_bind. by rewrite Hm. Qed.

Lemma M_bind_raise {A B} (m : M A) (f : A -> M B) w w' (e : exn) :
  m w = (w', Raise e) -> (m ≫= f) w = (w', Raise e).
Proof. intros Hm. unfold mbind, M_bind. by rewrite Hm. Qed.

Lemma last_tail {A} (n : nat) (l : list A) (a : A) :
  last (tail n l) = Some a -> last l = Some a.
Proof.
  unfold tail. intros Hlast.
  rewrite <- (take_drop (length l - n) l), last_app, Hlast. reflexivity.
Qed.

(** What a call of [predict_next] that returns a prediction went through. *)
Lemma predict_next_returns w now venue symbol time_horizon_minutes w' p :
  predict_next now venue symbol time_horizon_minutes w = (w', Ok (Some p)) ->
  exists (recent_data : DataFrame) (last_row : FeatureRow) (predicted : float),
    fetch_training_data (redis_client w) now venue symbol 1 = Some recent_data
    /\ (sequence_length (self w) <= length recent_data)%nat
    /\ last (tail (sequence_length (self w)) recent_data) = Some last_row
    /\ p = {| venue := venue; symbol := symbol;
              current_price := f_price last_row;
              predicted_price := predicted;
              price_change := (predicted - f_price last_row)%float;
              percent_change :=
                (((predicted - f_price last_row) / f_price last_row) * 100)%float;
              prediction_time := now;
              time_horizon_minutes := time_horizon_minutes;
              confidence :=
                _calculate_confidence
                  (((predicted - f_price last_row) / f_price last_row) * 100)%float |}
    /\ w' = {| self := self w;
               redis_client :=
                 redis_expire (prediction_key venue symbol) (60 * time_horizon_minutes)
                   (redis_set (prediction_key venue symbol) (JPrediction p)
                      (redis_client w)) |}.
Proof.
  unfold predict_next, try_except, mbind, M_bind, fetch, gets, lift, with_redis,
    scaler_transform, model_predict, scaler_inverse_transform, mret, M_ret.
  intros Hrun.
  destruct (fetch_training_data _ _ _ _ _) as [recent_data|] eqn:Hfetch;
    [|congruence].
  destruct (length recent_data <? sequence_length (self w))%nat eqn:Hlen;
    [congruence|].
  apply Nat.ltb_ge in Hlen.
  destruct (transform _ _) as [scaled_data|]; [|congruence].
  destruct (predict _ _) as [predicted_scaled|]; [|congruence].
  destruct (inverse_transform _ _) as [inverted|]; [|congruence].
  destruct (column0 inverted) as [prices|]; [|congruence].
  destruct (item prices 0) as [predicted|]; [|congruence].
  unfold last_item in Hrun.
  destruct (last (tail _ recent_data)) as [last_row|] eqn:Hlast; [|congruence].
  simpl in Hrun.
  exists recent_data, last_row, predicted.
  by simplify_eq.
Qed.

(** C6: when the 30-day fetch gives no data, or fewer than
    sequence_length + 10 rows, train returns False and the world is as it
    was before the call: no key of the store is written, the metrics key
    included, and scaler and model parameters are untouched. *)
Theorem train_insufficient_data w now venue symbol epochs batch_size :
  (fetch_training_data (redis_client w) now venue symbol 30 = None
   \/ exists df : DataFrame,
        fetch_training_data (redis_client w) now venue symbol 30 = Some df
        /\ (length df < sequence_length (self w) + 10)%nat) ->
  train now venue symbol epochs batch_size w = (w, Ok false).
Proof.
  intros Hdata. unfold train, mbind, M_bind, fetch, gets.
  destruct Hdata as [-> | (df & -> & Hlen)]; [reflexivity|].
  apply Nat.ltb_lt in Hlen. by rewrite Hlen.
Qed.

(** C7: when the 1-day fetch gives no data, or fewer than sequence_length
    rows, predict_next returns None and the world is as it was before the
    call: no key of the store is written, the prediction key included. *)
Theorem predict_insufficient_data w now venue symbol time_horizon_minutes :
  (fetch_training_data (redis_client w) now venue symbol 1 = None
   \/ exists recent_data : DataFrame,
        fetch_training_data (redis_client w) now venue symbol 1 = Some recent_data
        /\ (length recent_data < sequence_length (self w))%nat) ->
  predict_next now venue symbol time_horizon_minutes w = (w, Ok None).
Proof.
  intros Hdata. unfold predict_next, try_except, mbind, M_bind, fetch, gets.
  destruct Hdata as [-> | (df & -> & Hlen)]; [reflexivity|].
  apply Nat.ltb_lt in Hlen. by rewrite Hlen.
Qed.

(** What [prepare_data] leaves and returns when the scaler fits. *)
Lemma prepare_data_fitted w df sc scaled_data :
  fit_transform (scaler (self w)) (values df) = (sc, Ok scaled_data) ->
  prepare_data df w
  = ({| self := {| scaler := sc; model := model (self w);
                   sequence_length := sequence_length (self w) |};
        redis_client := redis_client w |},
     windows (sequence_length (self w)) scaled_data).
Proof.
  intros Hfit.
  unfold prepare_data, scaler_fit_transform, mbind, M_bind, gets, lift.
  by rewrite Hfit.
Qed.

(** C2 (amended): when the fetched data passes the row-count check and the
    engine's fit raises, train returns False and the store is as it was
    before the call, so no metrics key is persisted; the scaler, however, is
    the one prepare_data fitted on the fetched rows before the engine was
    called, and the model parameters are those the failed fit left. *)
Theorem train_engine_failure w now venue symbol epochs batch_size
    (df : DataFrame) (sc : Scaler) (scaled_data : FeatureMatrix)
    (X : list FeatureMatrix) (y : list float) (split_idx : Z) (m : Model) (e : exn) :
  fetch_training_data (redis_client w) now venue symbol 30 = Some df ->
  (sequence_length (self w) + 10 <= length df)%nat ->
  fit_transform (scaler (self w)) (values df) = (sc, Ok scaled_data) ->
  windows (sequence_length (self w)) scaled_data = Ok (X, y) ->
  py_int (float_of_nat (length X) * 0.8)%float = Ok split_idx ->
  fit (model (self w)) (take (Z.to_nat split_idx) X) (take (Z.to_nat split_idx) y)
      epochs batch_size (drop (Z.to_nat split_idx) X, drop (Z.to_nat split_idx) y)
  = (m, Raise e) ->
  train now venue symbol epochs batch_size w
  = ({| self := {| scaler := sc; model := m;
                   sequence_length := sequence_length (self w) |};
        redis_client := redis_client w |},
     Ok false).
Proof.
  intros Hfetch Hlen Hscale Hwin Hsplit Hfit.
  apply Nat.ltb_ge in Hlen.
  unfold train, prepare_data, scaler_fit_transform, try_except, model_fit,
    mbind, M_bind, fetch, gets, lift.
  rewrite Hfetch, Hlen, Hscale. simpl.
  rewrite Hwin, Hsplit. simpl.
  by rewrite Hfit.
Qed.

Lemma keys_after_set_expire (r : Store) (key : string) (v : json_doc) (seconds : Z) :
  keys (redis_expire key seconds (redis_set key v r)) !! key = Some (v, Some seconds).
Proof.
  unfold redis_expire, redis_set. simpl.
  by rewrite lookup_alter_eq, lookup_insert_eq.
Qed.

Lemma keys_after_set_expire_other (r : Store) (key k : string) (v : json_doc)
    (seconds : Z) :
  k <> key ->
  keys (redis_expire key seconds (redis_set key v r)) !! k = keys r !! k.
Proof.
  intros Hne. unfold redis_expire, redis_set. simpl.
  by rewrite lookup_alter_ne, lookup_insert_ne.
Qed.

(** C8 (amended): a prediction that predict_next returns has current_price
    equal to the price of the last fetched row, price_change equal to
    predicted_price - current_price, and percent_change equal to
    (price_change / current_price) * 100, the quotient taken first, each
    operation rounded in binary64; this holds whatever the engine answers. *)
Theorem prediction_arithmetic w now venue symbol time_horizon_minutes w' p :
  predict_next now venue symbol time_horizon_minutes w = (w', Ok (Some p)) ->
  (exists (recent_data : DataFrame) (last_row : FeatureRow),
      fetch_training_data (redis_client w) now venue symbol 1 = Some recent_data
      /\ last recent_data = Some last_row
      /\ current_price p = f_price last_row)
  /\ price_change p = (predicted_price p - current_price p)%float
  /\ percent_change p = ((price_change p / current_price p) * 100)%float.
Proof.
  intros Hrun.
  destruct (predict_next_returns _ _ _ _ _ _ _ Hrun)
    as (recent_data & last_row & predicted & Hfetch & _ & Hlast & -> & _).
  split; [|by split].
  exists recent_data, last_row. split; [done|]. split; [|done].
  by apply last_tail in Hlast.
Qed.

(** C9: a prediction that predict_next returns for a horizon of h minutes is
    written under the key ml:predictions:<venue>:<symbol>, venue and symbol
    in lower case; that key then holds a prediction for the horizon h with a
    time to live of 60 * h seconds, and no other key and no history of the
    store has changed. *)
Theorem prediction_key_and_ttl w now venue symbol (h : Z) w' p :
  predict_next now venue symbol h w = (w', Ok (Some p)) ->
  prediction_key venue symbol = "ml:predictions:" +:+ lower venue +:+ ":" +:+ lower symbol
  /\ (exists q : Prediction,
         redis_get (redis_client w') (prediction_key venue symbol) = Some (JPrediction q)
         /\ time_horizon_minutes q = h)
  /\ redis_ttl (redis_client w') (prediction_key venue symbol)
     = Some (60 * h)
  /\ (forall k : string, k <> prediction_key venue symbol ->
         keys (redis_client w') !! k = keys (redis_client w) !! k)
  /\ zsets (redis_client w') = zsets (redis_client w).
Proof.
  intros Hrun.
  destruct (predict_next_returns _ _ _ _ _ _ _ Hrun)
    as (recent_data & last_row & predicted & _ & _ & _ & Hp & ->).
  split; [reflexivity|]. simpl. unfold redis_get, redis_ttl.
  split; [|split; [|split]].
  - exists p. rewrite keys_after_set_expire. split; [done|]. by rewrite Hp.
  - by rewrite keys_after_set_expire.
  - intros k Hne. by apply keys_after_set_expire_other.
  - reflexivity.
Qed.

(** C10: the prediction that predict_next returns is the record the store
    holds under the prediction key after the call. *)
Theorem prediction_returned_is_persisted w now venue symbol time_horizon_minutes w' p :
  predict_next now venue symbol time_horizon_minutes w = (w', Ok (Some p)) ->
  redis_get (redis_client w') (prediction_key venue symbol) = Some (JPrediction p).
Proof.
  intros Hrun.
  destruct (predict_next_returns _ _ _ _ _ _ _ Hrun)
    as (recent_data & last_row & predicted & _ & _ & _ & _ & ->).
  simpl. unfold redis_get. by rewrite keys_after_set_expire.
Qed.

(** X18: predict_next never raises: its handler turns every exception into
    None. *)
Lemma predict_next_never_raises w now venue symbol time_horizon_minutes (e : exn) :
  snd (predict_next now venue symbol time_horizon_minutes w) <> Raise e.
Proof.
  unfold predict_next, try_except.
  match goal with
  | |- context [match ?body w with _ => _ end] =>
      destruct (body w) as [w1 [a|e1]]
  end; simpl; congruence.
Qed.

End Methods.

(** ** The sample run *)

Lemma float_eqb_false_neq (a b : float) :
  (a =? b)%float = false -> (b =? b)%float = true -> a <> b.
Proof. intros Hab Hbb ->. congruence. Qed.

Example no_path_no_instance :
  __init__ (Scaler := option ScalerState) (Model := StubModel) None = Raise AttributeError.
Proof. reflexivity. Qed.

Example missing_file_no_instance : constructed "missing.h5" (sample_store 70) = None.
Proof. reflexivity. Qed.

Example constructed_ready : constructed "model.h5" (sample_store 70) = Some ready_world.
Proof. reflexivity. Qed.

Example constructed_untrainable :
  constructed "untrainable.h5" (sample_store 70) = Some untrainable_world.
Proof. reflexivity. Qed.

Example fetch_sample_rows :
  fetch_training_data (sample_store 70) 100 "BINANCE" "BTC-USDT" 30 = Some (sample_rows 70)
  /\ fetch_training_data (sample_store 70) 100 "BINANCE" "BTC-USDT" 1 = Some (sample_rows 70).
Proof. split; vm_compute; reflexivity. Qed.

Example train_ready_world :
  train 100 "BINANCE" "BTC-USDT" 50 32 ready_world = (trained_world, Ok true).
Proof. vm_compute. reflexivity. Qed.

Example predict_trained_world :
  snd (predict_next 100 "BINANCE" "BTC-USDT" 5 trained_world) = Ok (Some sample_prediction).
Proof. vm_compute. reflexivity. Qed.

(** Before any training the scaler is not fitted: the prediction fails
    inside the handler and nothing is written. *)
Example predict_ready_world :
  predict_next 100 "BINANCE" "BTC-USDT" 5 ready_world = (ready_world, Ok None).
Proof. vm_compute. reflexivity. Qed.

(** With 69 rows in the store, one fewer than 60 + 10, train gives up before
    it touches the instance or the store. *)
Lemma train_insufficient_data_witness :
  train 100 "BINANCE" "BTC-USDT" 50 32
    {| self := self ready_world; redis_client := sample_store 69 |}
  = ({| self := self ready_world; redis_client := sample_store 69 |}, Ok false).
Proof.
  apply (train_insufficient_data
           {| self := self ready_world; redis_client := sample_store 69 |}
           100 "BINANCE" "BTC-USDT" 50 32).
  right. exists (sample_rows 69). split.
  - vm_compute. reflexivity.
  - vm_compute. lia.
Defined.

(** No history for the venue at all: predict_next gives up likewise. *)
Lemma predict_insufficient_data_witness :
  predict_next 100 "KRAKEN" "BTC-USDT" 5 trained_world = (trained_world, Ok None).
Proof.
  apply (predict_insufficient_data trained_world 100 "KRAKEN" "BTC-USDT" 5).
  left. vm_compute. reflexivity.
Defined.

(** C2 (as stated, refuted): the instance loaded from untrainable.h5 has 70
    rows to train on and an engine whose fit raises; train returns False,
    and the scaler, not fitted before the call, is fitted after it. *)
Lemma failed_train_refits_scaler :
  fetch_training_data (redis_client untrainable_world) 100 "BINANCE" "BTC-USDT" 30
  = Some (sample_rows 70)
  /\ (sequence_length (self untrainable_world) + 10 <= length (sample_rows 70))%nat
  /\ (forall X_train y_train epochs batch_size validation_data,
         fit (model (self untrainable_world)) X_train y_train epochs batch_size
             validation_data
         = (model (self untrainable_world), Raise EngineFailure))
  /\ snd (train 100 "BINANCE" "BTC-USDT" 50 32 untrainable_world) = Ok false
  /\ scaler (self untrainable_world) = None
  /\ scaler (self (fst (train 100 "BINANCE" "BTC-USDT" 50 32 untrainable_world)))
     = Some sample_scaler
  /\ scaler (self (fst (train 100 "BINANCE" "BTC-USDT" 50 32 untrainable_world)))
     <> scaler (self untrainable_world).
Proof.
  split; [vm_compute; reflexivity|].
  split; [vm_compute; lia|].
  split; [reflexivity|].
  split; [vm_compute; reflexivity|].
  split; [reflexivity|].
  split; [vm_compute; reflexivity|].
  vm_compute. discriminate.
Qed.

Lemma train_engine_failure_witness :
  train 100 "BINANCE" "BTC-USDT" 50 32 untrainable_world
  = ({| self := {| scaler := Some sample_scaler;
                   model := {| fit_raises := true; output := 1.5 |};
                   sequence_length := 60 |};
        redis_client := sample_store 70 |},
     Ok false).
Proof.
  apply (train_engine_failure untrainable_world 100 "BINANCE" "BTC-USDT" 50 32
           (sample_rows 70) (Some sample_scaler)
           (map (scale_row sample_scaler) (values (sample_rows 70)))
           (map (fun i => slice (map (scale_row sample_scaler) (values (sample_rows 70)))
                            (i - 60) i) (seq 60 10))
           (map v_price (drop 60 (map (scale_row sample_scaler) (values (sample_rows 70)))))
           8 {| fit_raises := true; output := 1.5 |} EngineFailure).
  - vm_compute. reflexivity.
  - vm_compute. lia.
  - vm_compute. reflexivity.
  - vm_compute. reflexivity.
  - vm_compute. reflexivity.
  - reflexivity.
Defined.

(** C8 (as stated, refuted): the trained sample instance predicts 4.0
    against a last price of 3.0; the percent change of the record is
    (1.0 / 3.0) * 100, which in binary64 is not 100 * 1.0 / 3.0. *)
Lemma percent_change_divides_first :
  snd (predict_next 100 "BINANCE" "BTC-USDT" 5 trained_world) = Ok (Some sample_prediction)
  /\ price_change sample_prediction
     = (predicted_price sample_prediction - current_price sample_prediction)%float
  /\ (percent_change sample_prediction
      =? 100 * price_change sample_prediction / current_price sample_prediction)%float
     = false
  /\ percent_change sample_prediction
     <> (100 * price_change sample_prediction / current_price sample_prediction)%float.
Proof.
  split; [vm_compute; reflexivity|].
  split; [reflexivity|].
  split; [reflexivity|].
  apply float_eqb_false_neq; reflexivity.
Qed.

Lemma prediction_arithmetic_witness :
  (exists (recent_data : DataFrame) (last_row : FeatureRow),
      fetch_training_data (redis_client trained_world) 100 "BINANCE" "BTC-USDT" 1
      = Some recent_data
      /\ last recent_data = Some last_row
      /\ current_price sample_prediction = f_price last_row)
  /\ price_change sample_prediction
     = (predicted_price sample_prediction - current_price sample_prediction)%float
  /\ percent_change sample_prediction
     = ((price_change sample_prediction / current_price sample_prediction) * 100)%float.
Proof.
  apply (prediction_arithmetic trained_world 100 "BINANCE" "BTC-USDT" 5
           (fst (predict_next 100 "BINANCE" "BTC-USDT" 5 trained_world))
           sample_prediction).
  vm_compute. reflexivity.
Defined.

Lemma prediction_key_and_ttl_witness :
  prediction_key "BINANCE" "BTC-USDT"
  = "ml:predictions:" +:+ lower "BINANCE" +:+ ":" +:+ lower "BTC-USDT"
  /\ (exists q : Prediction,
         redis_get (redis_client (fst (predict_next 100 "BINANCE" "BTC-USDT" 5 trained_world)))
           (prediction_key "BINANCE" "BTC-USDT")
         = Some (JPrediction q)
         /\ time_horizon_minutes q = 5)
  /\ redis_ttl (redis_client (fst (predict_next 100 "BINANCE" "BTC-USDT" 5 trained_world)))
       (prediction_key "BINANCE" "BTC-USDT")
     = Some (60 * 5)
  /\ (forall k : string,
         k <> prediction_key "BINANCE" "BTC-USDT" ->
         keys (redis_client (fst (predict_next 100 "BINANCE" "BTC-USDT" 5 trained_world))) !! k
         = keys (redis_client trained_world) !! k)
  /\ zsets (redis_client (fst (predict_next 100 "BINANCE" "BTC-USDT" 5 trained_world)))
     = zsets (redis_client trained_world).
Proof.
  apply (prediction_key_and_ttl trained_world 100 "BINANCE" "BTC-USDT" 5
           (fst (predict_next 100 "BINANCE" "BTC-USDT" 5 trained_world))
           sample_prediction).
  vm_compute. reflexivity.
Defined.

Lemma prediction_returned_is_persisted_witness :
  redis_get (redis_client (fst (predict_next 100 "BINANCE" "BTC-USDT" 5 trained_world)))
    "ml:predictions:binance:btc-usdt"
  = Some (JPrediction sample_prediction).
Proof.
  apply (prediction_returned_is_persisted trained_world 100 "BINANCE" "BTC-USDT" 5
           (fst (predict_next 100 "BINANCE" "BTC-USDT" 5 trained_world))
           sample_prediction).
  vm_compute. reflexivity.
Defined.

(** * Further properties of the code *)

(** ** fetch_training_data *)

Lemma parse_item_has_volume (r : OrderBookRecord) :
  has_volume r = true -> parse_item (Some r) = Ok (features_of r).
Proof.
  unfold has_volume, parse_item, json_loads, py_div. intros Hv.
  apply negb_true_iff in Hv. by rewrite result_bind_ok, Hv.
Qed.

Lemma parse_loop_all_parse (records : list OrderBookRecord) :
  Forall (fun r => has_volume r = true) records ->
  forall parsed_data,
    parse_loop (map Some records) parsed_data
    = Ok (parsed_data ++ map features_of records).
Proof.
  induction 1 as [|r records Hr _ IH]; intros parsed_data; simpl.
  - by rewrite app_nil_r.
  - rewrite (parse_item_has_volume r Hr), result_bind_ok, IH.
    by rewrite <- app_assoc.
Qed.

(** X1: When every record in the range decodes and has volume on some side,
    the fetch gives one row per record, in the order of the range, with
    spread = ask - bid, mid = (ask + bid) / 2 and
    imbalance = bid_volume / (bid_volume + ask_volume). *)
Theorem fetch_rows_of_records (redis : Store) (now : Z) (venue symbol : string)
    (lookback_days : Z) (records : list OrderBookRecord) :
  zrangebyscore redis (data_key venue symbol) (now - lookback_days * ms_per_day) now
  = map Some records ->
  records <> [] ->
  Forall (fun r => has_volume r = true) records ->
  fetch_training_data redis now venue symbol lookback_days
  = Some (map features_of records)
  /\ length (map features_of records) = length records.
Proof.
  intros Hraw Hne Hall. split; [|by rewrite length_map].
  unfold fetch_training_data. rewrite Hraw.
  destruct records as [|r records]; [done|].
  change (Some r :: map Some records) with (map Some (r :: records)).
  by rewrite parse_loop_all_parse.
Qed.

Lemma fetch_rows_of_records_witness :
  fetch_training_data store_without_halt 100 "BINANCE" "BTC-USDT" 30
  = Some (map features_of [quote 1 1; quote 3 1])
  /\ length (map features_of [quote 1 1; quote 3 1]) = length [quote 1 1; quote 3 1].
Proof.
  apply (fetch_rows_of_records store_without_halt 100 "BINANCE" "BTC-USDT" 30
           [quote 1 1; quote 3 1]).
  - vm_compute. reflexivity.
  - discriminate.
  - repeat constructor.
Defined.

(** X2: No record in the range, which includes a venue or symbol with no
    history at all: the fetch gives None. *)
Theorem fetch_empty_range (redis : Store) (now : Z) (venue symbol : string)
    (lookback_days : Z) :
  (zsets redis !! data_key venue symbol = None
   \/ exists history,
        zsets redis !! data_key venue symbol = Some history
        /\ Forall (fun e => ~ (now - lookback_days * ms_per_day <= fst e <= now)) history) ->
  fetch_training_data redis now venue symbol lookback_days = None.
Proof.
  intros Hrange. unfold fetch_training_data, zrangebyscore.
  destruct Hrange as [-> | (history & -> & Hout)]; [reflexivity|].
  simpl.
  replace (filter _ history) with (@nil (Z * raw_item)); [reflexivity|].
  symmetry. induction Hout as [|e history He _ IH]; [reflexivity|].
  rewrite filter_cons. destruct (decide _); [done|]. apply IH.
Qed.

Lemma fetch_empty_range_witness :
  fetch_training_data store_without_halt 200000000 "BINANCE" "BTC-USDT" 1 = None.
Proof.
  apply (fetch_empty_range store_without_halt 200000000 "BINANCE" "BTC-USDT" 1).
  right. exists [(1, Some (quote 1 1)); (3, Some (quote 3 1))].
  split; [reflexivity|].
  constructor; [simpl; unfold ms_per_day; lia|].
  constructor; [simpl; unfold ms_per_day; lia|].
  constructor.
Defined.

(** X3: A member of the range that does not decode to a record with the seven
    fields makes the fetch give None, whatever the other members are. *)
Theorem fetch_undecodable_item (redis : Store) (now : Z) (venue symbol : string)
    (lookback_days : Z) :
  None ∈ zrangebyscore redis (data_key venue symbol)
           (now - lookback_days * ms_per_day) now ->
  fetch_training_data redis now venue symbol lookback_days = None.
Proof.
  intros Hin. unfold fetch_training_data.
  destruct (zrangebyscore _ _ _ _) as [|first rest] eqn:Hraw; [reflexivity|].
  destruct (parse_loop_raises _ _ Hin (ex_intro _ KeyError eq_refl) []) as [e ->].
  reflexivity.
Qed.

Lemma fetch_undecodable_item_witness :
  fetch_training_data store_with_garbage 100 "BINANCE" "BTC-USDT" 30 = None.
Proof.
  apply (fetch_undecodable_item store_with_garbage 100 "BINANCE" "BTC-USDT" 30).
  vm_compute. apply list_elem_of_further, list_elem_of_here.
Defined.

(** X4: Venue and symbol enter every key in lower case only: two spellings that
    agree up to the case of their letters read the same history and share
    the metrics key and the prediction key. *)
Theorem keys_ignore_case (venue venue' symbol symbol' : string) :
  lower venue = lower venue' ->
  lower symbol = lower symbol' ->
  metrics_key venue symbol = metrics_key venue' symbol'
  /\ prediction_key venue symbol = prediction_key venue' symbol'
  /\ forall (redis : Store) (now lookback_days : Z),
       fetch_training_data redis now venue symbol lookback_days
       = fetch_training_data redis now venue' symbol' lookback_days.
Proof.
  intros Hv Hs. unfold metrics_key, prediction_key, fetch_training_data, data_key.
  by rewrite Hv, Hs.
Qed.

Lemma keys_ignore_case_witness :
  metrics_key "BINANCE" "BTC-USDT" = metrics_key "Binance" "btc-usdt"
  /\ prediction_key "BINANCE" "BTC-USDT" = prediction_key "Binance" "btc-usdt"
  /\ forall (redis : Store) (now lookback_days : Z),
       fetch_training_data redis now "BINANCE" "BTC-USDT" lookback_days
       = fetch_training_data redis now "Binance" "btc-usdt" lookback_days.
Proof. apply (keys_ignore_case "BINANCE" "Binance" "BTC-USDT" "btc-usdt"); reflexivity. Defined.

(** ** prepare_data *)

Lemma slice_lookup {A} (l : list A) (a b j : nat) :
  (j < b - a)%nat -> slice l a b !! j = l !! (a + j)%nat.
Proof. intros Hj. unfold slice. by rewrite lookup_take_lt, lookup_drop. Qed.

Lemma windows_lookup (s : nat) (scaled_data : FeatureMatrix)
    (X : list FeatureMatrix) (y : list float) (i : nat) (input : FeatureMatrix) :
  windows s scaled_data = Ok (X, y) ->
  X !! i = Some input ->
  (i < length scaled_data - s)%nat
  /\ input = slice scaled_data i (i + s)
  /\ y !! i = v_price <$> scaled_data !! (i + s)%nat.
Proof.
  rewrite windows_eq. intros [= <- <-] Hi.
  change (map ?f ?l) with (f <$> l) in *.
  rewrite list_lookup_fmap in Hi.
  destruct (seq s (length scaled_data - s) !! i) as [k|] eqn:Hk; [|done].
  apply lookup_seq in Hk as [-> Hlt]. simpl in Hi.
  split; [done|]. split.
  - injection Hi as <-.
    by replace (s + i - s)%nat with i by lia; replace (s + i)%nat with (i + s)%nat by lia.
  - rewrite list_lookup_fmap, lookup_drop.
    by replace (s + i)%nat with (i + s)%nat by lia.
Qed.

(** X5: A matrix with no more rows than the sequence length gives no window
    and no target, and no error. *)
Theorem windows_short_input (s : nat) (scaled_data : FeatureMatrix) :
  (length scaled_data <= s)%nat -> windows s scaled_data = Ok ([], []).
Proof.
  intros Hle. rewrite windows_eq.
  replace (length scaled_data - s)%nat with 0%nat by lia.
  by rewrite drop_ge by lia.
Qed.

Lemma windows_short_input_witness : windows 3 three_rows = Ok ([], []).
Proof. apply (windows_short_input 3 three_rows). simpl. lia. Defined.

(** X6: Consecutive windows overlap in all but one row: window i+1 is window i
    moved one row on, and the target of window i is the price of the last
    row of window i+1. *)
Theorem windows_overlap (s : nat) (scaled_data : FeatureMatrix)
    (X : list FeatureMatrix) (y : list float) (i : nat) (a b : FeatureMatrix) :
  windows s scaled_data = Ok (X, y) ->
  X !! i = Some a ->
  X !! S i = Some b ->
  (forall j : nat, (S j < s)%nat -> b !! j = a !! S j)
  /\ ((0 < s)%nat -> y !! i = v_price <$> b !! (s - 1)%nat).
Proof.
  intros Hwin Ha Hb.
  destruct (windows_lookup _ _ _ _ _ _ Hwin Ha) as (Hi & -> & Hy).
  destruct (windows_lookup _ _ _ _ _ _ Hwin Hb) as (HSi & -> & _).
  split.
  - intros j Hj. rewrite !slice_lookup by lia. f_equal. lia.
  - intros Hs. rewrite Hy, slice_lookup by lia. do 2 f_equal. lia.
Qed.

Lemma windows_overlap_witness :
  (forall j : nat, (S j < 2)%nat ->
     [scaled_row 0.25; scaled_row 0.5] !! j = [scaled_row 0; scaled_row 0.25] !! S j)
  /\ ((0 < 2)%nat ->
      [0.5%float; 1%float] !! 0%nat
      = v_price <$> [scaled_row 0.25; scaled_row 0.5] !! (2 - 1)%nat).
Proof.
  apply (windows_overlap 2 four_rows
           [[scaled_row 0; scaled_row 0.25]; [scaled_row 0.25; scaled_row 0.5]]
           [0.5%float; 1%float] 0
           [scaled_row 0; scaled_row 0.25] [scaled_row 0.25; scaled_row 0.5]);
    reflexivity.
Defined.

Section Preparation.
Context {Scaler Model : Type} `{!Normalizer Scaler} `{!SequenceEngine Model}.
Implicit Types w : World Scaler Model.

(** X7: prepare_data changes nothing but the scaler: the model, the sequence
    length and the store are as before, whether it returns or raises, and
    the scaler is the one fit_transform leaves. *)
Theorem prepare_data_changes_scaler_only w (df : DataFrame) :
  model (self (fst (prepare_data df w))) = model (self w)
  /\ sequence_length (self (fst (prepare_data df w))) = sequence_length (self w)
  /\ redis_client (fst (prepare_data df w)) = redis_client w
  /\ scaler (self (fst (prepare_data df w)))
     = fst (fit_transform (scaler (self w)) (values df)).
Proof.
  unfold prepare_data, scaler_fit_transform, mbind, M_bind, gets, lift.
  by destruct (fit_transform _ _) as [sc [scaled_data|e]].
Qed.

(** X8: What fit_transform raises leaves train as an exception, not as False:
    prepare_data is called outside the try block.  The store is as before
    and the scaler is the one the failed fit left. *)
Theorem train_scaler_failure_raises w now venue symbol epochs batch_size
    (df : DataFrame) (sc : Scaler) (e : exn) :
  fetch_training_data (redis_client w) now venue symbol 30 = Some df ->
  (sequence_length (self w) + 10 <= length df)%nat ->
  fit_transform (scaler (self w)) (values df) = (sc, Raise e) ->
  train now venue symbol epochs batch_size w
  = ({| self := {| scaler := sc; model := model (self w);
                   sequence_length := sequence_length (self w) |};
        redis_client := redis_client w |},
     Raise e).
Proof.
  intros Hfetch Hlen Hscale. apply Nat.ltb_ge in Hlen.
  unfold train, prepare_data, scaler_fit_transform, mbind, M_bind, fetch, gets, lift.
  by rewrite Hfetch, Hlen, Hscale.
Qed.

End Preparation.

Lemma train_scaler_failure_raises_witness :
  @train unit StubModel rejecting_normalizer stub_engine 100 "BINANCE" "BTC-USDT" 50 32
    rejecting_world
  = (rejecting_world, Raise ValueError).
Proof.
  apply (@train_scaler_failure_raises unit StubModel rejecting_normalizer stub_engine
           rejecting_world 100 "BINANCE" "BTC-USDT" 50 32 (sample_rows 70) tt ValueError).
  - vm_compute. reflexivity.
  - vm_compute. lia.
  - reflexivity.
Defined.

(** ** train *)

Lemma metrics_key_is_no_prediction_key (venue symbol venue' symbol' : string) :
  metrics_key venue symbol <> prediction_key venue' symbol'.
Proof. unfold metrics_key, prediction_key. intros H. injection H. discriminate. Qed.

Section Training.
Context {Scaler Model : Type} `{!Normalizer Scaler} `{!SequenceEngine Model}.
Implicit Types w : World Scaler Model.

(** X9: The run of train in which everything succeeds: it returns True, the
    instance holds the fitted scaler and the fitted model, and the metrics
    key holds the last loss and the last validation loss of the history,
    the number of windows, and venue and symbol as they were passed, with
    no time to live, whatever the key held before. *)
Theorem train_success w now venue symbol epochs batch_size
    (df : DataFrame) (sc : Scaler) (scaled_data : FeatureMatrix)
    (X : list FeatureMatrix) (y : list float) (split_idx : Z) (m : Model)
    (history : History) (final_loss final_val_loss : float) :
  fetch_training_data (redis_client w) now venue symbol 30 = Some df ->
  (sequence_length (self w) + 10 <= length df)%nat ->
  fit_transform (scaler (self w)) (values df) = (sc, Ok scaled_data) ->
  windows (sequence_length (self w)) scaled_data = Ok (X, y) ->
  py_int (float_of_nat (length X) * 0.8)%float = Ok split_idx ->
  fit (model (self w)) (take (Z.to_nat split_idx) X) (take (Z.to_nat split_idx) y)
      epochs batch_size (drop (Z.to_nat split_idx) X, drop (Z.to_nat split_idx) y)
  = (m, Ok history) ->
  last (loss history) = Some final_loss ->
  last (val_loss history) = Some final_val_loss ->
  let training_metrics :=
    {| m_venue := venue; m_symbol := symbol;
       m_loss := final_loss; m_val_loss := final_val_loss;
       m_timestamp := now; m_data_points := length X |} in
  train now venue symbol epochs batch_size w
  = ({| self := {| scaler := sc; model := m;
                   sequence_length := sequence_length (self w) |};
        redis_client :=
          redis_set (metrics_key venue symbol) (JMetrics training_metrics)
            (redis_client w) |},
     Ok true)
  /\ redis_get (redis_set (metrics_key venue symbol) (JMetrics training_metrics)
                  (redis_client w)) (metrics_key venue symbol)
     = Some (JMetrics training_metrics)
  /\ redis_ttl (redis_set (metrics_key venue symbol) (JMetrics training_metrics)
                  (redis_client w)) (metrics_key venue symbol)
     = None.
Proof.
  intros Hfetch Hlen Hscale Hwin Hsplit Hfit Hloss Hval tm.
  apply Nat.ltb_ge in Hlen.
  split; [|split].
  - unfold train, prepare_data, scaler_fit_transform, try_except, model_fit,
      with_redis, last_item, mbind, M_bind, fetch, gets, lift.
    rewrite Hfetch, Hlen, Hscale. simpl.
    rewrite Hwin, Hsplit. simpl.
    rewrite Hfit. simpl. by rewrite Hloss, Hval.
  - unfold redis_get, redis_set. simpl. by rewrite lookup_insert_eq.
  - unfold redis_ttl, redis_set. simpl. by rewrite lookup_insert_eq.
Qed.

(** X10: A fit that returns a history with no loss or no validation loss, as
    for no epochs, makes train return False with the store as before; the
    scaler and the model are the fitted ones all the same. *)
Theorem train_empty_history w now venue symbol epochs batch_size
    (df : DataFrame) (sc : Scaler) (scaled_data : FeatureMatrix)
    (X : list FeatureMatrix) (y : list float) (split_idx : Z) (m : Model)
    (history : History) :
  fetch_training_data (redis_client w) now venue symbol 30 = Some df ->
  (sequence_length (self w) + 10 <= length df)%nat ->
  fit_transform (scaler (self w)) (values df) = (sc, Ok scaled_data) ->
  windows (sequence_length (self w)) scaled_data = Ok (X, y) ->
  py_int (float_of_nat (length X) * 0.8)%float = Ok split_idx ->
  fit (model (self w)) (take (Z.to_nat split_idx) X) (take (Z.to_nat split_idx) y)
      epochs batch_size (drop (Z.to_nat split_idx) X, drop (Z.to_nat split_idx) y)
  = (m, Ok history) ->
  loss history = [] \/ val_loss history = [] ->
  train now venue symbol epochs batch_size w
  = ({| self := {| scaler := sc; model := m;
                   sequence_length := sequence_length (self w) |};
        redis_client := redis_client w |},
     Ok false).
Proof.
  intros Hfetch Hlen Hscale Hwin Hsplit Hfit Hempty.
  apply Nat.ltb_ge in Hlen.
  unfold train, prepare_data, scaler_fit_transform, try_except, model_fit,
    with_redis, last_item, mbind, M_bind, fetch, gets, lift.
  rewrite Hfetch, Hlen, Hscale. simpl.
  rewrite Hwin, Hsplit. simpl.
  rewrite Hfit. simpl.
  destruct Hempty as [-> | ->]; simpl; [done|].
  by destruct (last (loss history)).
Qed.

(** Every run of train, whatever it returns or raises: either it returns
    True and the store differs from the one before by the metrics written
    under the metrics key, or the store is the one before. *)
Lemma train_outcome w now venue symbol epochs batch_size w' r :
  train now venue symbol epochs batch_size w = (w', r) ->
  sequence_length (self w') = sequence_length (self w)
  /\ ((exists tm : TrainingMetrics,
          r = Ok true
          /\ redis_client w'
             = redis_set (metrics_key venue symbol) (JMetrics tm) (redis_client w)
          /\ m_venue tm = venue /\ m_symbol tm = symbol)
      \/ (r <> Ok true /\ redis_client w' = redis_client w)).
Proof.
  unfold train, prepare_data, scaler_fit_transform, try_except, model_fit,
    with_redis, last_item, mbind, M_bind, fetch, gets, lift, mret, M_ret.
  intros Hrun.
  destruct (fetch_training_data _ _ _ _ _) as [df|];
    [|simplify_eq; split; [done|right; by split]].
  destruct (length df <? _)%nat;
    [simplify_eq; split; [done|right; by split]|].
  destruct (fit_transform _ _) as [sc [scaled_data|e]];
    [|simplify_eq; split; [done|right; by split]].
  simpl in Hrun. rewrite windows_eq in Hrun. simpl in Hrun.
  destruct (py_int _) as [split_idx|e];
    [|simplify_eq; split; [done|right; by split]].
  simpl in Hrun.
  destruct (fit _ _ _ _ _ _) as [m [history|e]];
    [|simplify_eq; split; [done|right; by split]].
  simpl in Hrun.
  destruct (last (loss history)) as [final_loss|];
    [|simplify_eq; split; [done|right; by split]].
  destruct (last (val_loss history)) as [final_val_loss|];
    [|simplify_eq; split; [done|right; by split]].
  simpl in Hrun. simplify_eq. split; [done|]. left.
  eexists. split; [done|]. split; [reflexivity|]. by split.
Qed.

(** X11: train returns True exactly when it has written the metrics: in every
    other outcome, an exception included, the store is the one before the
    call, and after True the metrics key holds metrics for the venue and
    symbol passed, with no time to live. *)
Theorem train_true_iff_metrics_written w now venue symbol epochs batch_size w' r :
  train now venue symbol epochs batch_size w = (w', r) ->
  (r <> Ok true -> redis_client w' = redis_client w)
  /\ (r = Ok true ->
      exists tm : TrainingMetrics,
        redis_get (redis_client w') (metrics_key venue symbol) = Some (JMetrics tm)
        /\ redis_ttl (redis_client w') (metrics_key venue symbol) = None
        /\ m_venue tm = venue /\ m_symbol tm = symbol).
Proof.
  intros Hrun.
  destruct (train_outcome _ _ _ _ _ _ _ _ Hrun)
    as [_ [(tm & -> & -> & Hv & Hs) | [Hr ->]]].
  - split; [done|]. intros _. exists tm.
    unfold redis_get, redis_ttl, redis_set. simpl.
    by rewrite lookup_insert_eq.
  - by split.
Qed.

(** X12: train never touches another key than the metrics key, never a
    history, and never the sequence length; no prediction key in
    particular. *)
Theorem train_touches_metrics_key_only w now venue symbol epochs batch_size w' r :
  train now venue symbol epochs batch_size w = (w', r) ->
  zsets (redis_client w') = zsets (redis_client w)
  /\ (forall k : string, k <> metrics_key venue symbol ->
        keys (redis_client w') !! k = keys (redis_client w) !! k)
  /\ (forall venue' symbol' : string,
        keys (redis_client w') !! prediction_key venue' symbol'
        = keys (redis_client w) !! prediction_key venue' symbol')
  /\ sequence_length (self w') = sequence_length (self w).
Proof.
  intros Hrun.
  destruct (train_outcome _ _ _ _ _ _ _ _ Hrun)
    as [Hs [(tm & _ & -> & _) | [_ ->]]].
  - split; [done|]. split; [|split; [|done]].
    + intros k Hk. unfold redis_set. simpl. by rewrite lookup_insert_ne.
    + intros venue' symbol'. unfold redis_set. simpl.
      rewrite lookup_insert_ne; [done|]. apply metrics_key_is_no_prediction_key.
  - done.
Qed.

End Training.

Lemma train_success_witness :
  train 100 "BINANCE" "BTC-USDT" 50 32 ready_world
  = ({| self := {| scaler := Some sample_scaler;
                   model := {| fit_raises := false; output := 1.5 |};
                   sequence_length := 60 |};
        redis_client :=
          redis_set (metrics_key "BINANCE" "BTC-USDT") (JMetrics sample_metrics)
            (sample_store 70) |},
     Ok true)
  /\ redis_get (redis_set (metrics_key "BINANCE" "BTC-USDT") (JMetrics sample_metrics)
                  (sample_store 70)) (metrics_key "BINANCE" "BTC-USDT")
     = Some (JMetrics sample_metrics)
  /\ redis_ttl (redis_set (metrics_key "BINANCE" "BTC-USDT") (JMetrics sample_metrics)
                  (sample_store 70)) (metrics_key "BINANCE" "BTC-USDT")
     = None.
Proof.
  apply (train_success ready_world 100 "BINANCE" "BTC-USDT" 50 32
           (sample_rows 70) (Some sample_scaler) sample_scaled sample_X sample_y 8
           {| fit_raises := false; output := 1.5 |}
           {| loss := [0.25%float]; val_loss := [0.5%float] |} 0.25 0.5).
  - vm_compute. reflexivity.
  - vm_compute. lia.
  - vm_compute. reflexivity.
  - vm_compute. reflexivity.
  - vm_compute. reflexivity.
  - reflexivity.
  - reflexivity.
  - reflexivity.
Defined.

Lemma train_empty_history_witness :
  @train (option ScalerState) StubModel minmax_normalizer epoch_engine
    100 "BINANCE" "BTC-USDT" 0 32 ready_world
  = ({| self := {| scaler := Some sample_scaler;
                   model := {| fit_raises := false; output := 1.5 |};
                   sequence_length := 60 |};
        redis_client := sample_store 70 |},
     Ok false).
Proof.
  apply (@train_empty_history (option ScalerState) StubModel minmax_normalizer epoch_engine
           ready_world 100 "BINANCE" "BTC-USDT" 0 32
           (sample_rows 70) (Some sample_scaler) sample_scaled sample_X sample_y 8
           {| fit_raises := false; output := 1.5 |}
           {| loss := []; val_loss := [] |}).
  - vm_compute. reflexivity.
  - vm_compute. lia.
  - vm_compute. reflexivity.
  - vm_compute. reflexivity.
  - vm_compute. reflexivity.
  - reflexivity.
  - by left.
Defined.

Lemma train_true_iff_metrics_written_witness :
  (Ok true <> Ok true -> redis_client trained_world = redis_client ready_world)
  /\ (Ok true = Ok true ->
      exists tm : TrainingMetrics,
        redis_get (redis_client trained_world) (metrics_key "BINANCE" "BTC-USDT")
        = Some (JMetrics tm)
        /\ redis_ttl (redis_client trained_world) (metrics_key "BINANCE" "BTC-USDT") = None
        /\ m_venue tm = "BINANCE" /\ m_symbol tm = "BTC-USDT").
Proof.
  apply (train_true_iff_metrics_written ready_world 100 "BINANCE" "BTC-USDT" 50 32
           trained_world (Ok true)).
  vm_compute. reflexivity.
Defined.

Lemma train_touches_metrics_key_only_witness :
  zsets (redis_client trained_world) = zsets (redis_client ready_world)
  /\ (forall k : string, k <> metrics_key "BINANCE" "BTC-USDT" ->
        keys (redis_client trained_world) !! k = keys (redis_client ready_world) !! k)
  /\ (forall venue' symbol' : string,
        keys (redis_client trained_world) !! prediction_key venue' symbol'
        = keys (redis_client ready_world) !! prediction_key venue' symbol')
  /\ sequence_length (self trained_world) = sequence_length (self ready_world).
Proof.
  apply (train_touches_metrics_key_only ready_world 100 "BINANCE" "BTC-USDT" 50 32
           trained_world (Ok true)).
  vm_compute. reflexivity.
Defined.

(** ** predict_next *)

Section Predicting.
Context {Scaler Model : Type} `{!Normalizer Scaler} `{!SequenceEngine Model}.
Implicit Types w : World Scaler Model.

(** Every run of predict_next: either it returns None and the world is the
    one before, or it returns a prediction and the world differs by the
    prediction key alone. *)
Lemma predict_next_outcome w now venue0 symbol0 (h : Z) w' r :
  predict_next now venue0 symbol0 h w = (w', r) ->
  (r = Ok None /\ w' = w)
  \/ (exists p : Prediction,
         r = Ok (Some p)
         /\ w' = {| self := self w;
                    redis_client :=
                      redis_expire (prediction_key venue0 symbol0) (60 * h)
                        (redis_set (prediction_key venue0 symbol0) (JPrediction p)
                           (redis_client w)) |}
         /\ venue p = venue0 /\ symbol p = symbol0
         /\ time_horizon_minutes p = h /\ prediction_time p = now
         /\ confidence p = _calculate_confidence (percent_change p)).
Proof.
  unfold predict_next, try_except, mbind, M_bind, fetch, gets, lift, with_redis,
    scaler_transform, model_predict, scaler_inverse_transform, mret, M_ret.
  intros Hrun.
  destruct (fetch_training_data _ _ _ _ _) as [recent_data|];
    [|left; by simplify_eq].
  destruct (length recent_data <? sequence_length (self w))%nat;
    [left; by simplify_eq|].
  destruct (transform _ _) as [scaled_data|]; [|left; by simplify_eq].
  destruct (predict _ _) as [predicted_scaled|]; [|left; by simplify_eq].
  destruct (inverse_transform _ _) as [inverted|]; [|left; by simplify_eq].
  destruct (column0 inverted) as [prices|]; [|left; by simplify_eq].
  destruct (item prices 0) as [predicted|]; [|left; by simplify_eq].
  unfold last_item in Hrun.
  destruct (last (tail _ recent_data)) as [last_row|]; [|left; by simplify_eq].
  simpl in Hrun. right. eexists. split; [by simplify_eq|]. by simplify_eq.
Qed.

(** X14: A predict_next that returns None has changed nothing: neither the
    store nor the instance. *)
Theorem predict_failure_changes_nothing w now venue symbol (h : Z) w' :
  predict_next now venue symbol h w = (w', Ok None) -> w' = w.
Proof.
  intros Hrun.
  by destruct (predict_next_outcome _ _ _ _ _ _ _ Hrun) as [[_ ->] | (p & ? & _)].
Qed.

(** X15: predict_next never changes the instance, a history, a key other than
    the prediction key, or any metrics key, whatever it returns. *)
Theorem predict_touches_prediction_key_only w now venue symbol (h : Z) w' r :
  predict_next now venue symbol h w = (w', r) ->
  self w' = self w
  /\ zsets (redis_client w') = zsets (redis_client w)
  /\ (forall k : string, k <> prediction_key venue symbol ->
        keys (redis_client w') !! k = keys (redis_client w) !! k)
  /\ (forall venue' symbol' : string,
        keys (redis_client w') !! metrics_key venue' symbol'
        = keys (redis_client w) !! metrics_key venue' symbol').
Proof.
  intros Hrun.
  destruct (predict_next_outcome _ _ _ _ _ _ _ Hrun)
    as [[_ ->] | (p & _ & -> & _)]; [done|].
  simpl. split; [done|]. split; [done|]. split.
  - intros k Hk. by apply keys_after_set_expire_other.
  - intros venue' symbol'. apply keys_after_set_expire_other.
    apply metrics_key_is_no_prediction_key.
Qed.

(** X16: The prediction returned carries venue and symbol as they were passed
    (the key alone is in lower case), the horizon and the time of the call,
    and the confidence label of its own percent change. *)
Theorem prediction_fields w now venue0 symbol0 (h : Z) w' p :
  predict_next now venue0 symbol0 h w = (w', Ok (Some p)) ->
  venue p = venue0 /\ symbol p = symbol0
  /\ time_horizon_minutes p = h /\ prediction_time p = now
  /\ confidence p = _calculate_confidence (percent_change p).
Proof.
  intros Hrun.
  destruct (predict_next_outcome _ _ _ _ _ _ _ Hrun)
    as [[? _] | (q & Hq & _ & Hfields)]; [done|].
  by simplify_eq.
Qed.

(** X17: When the scaler's transform raises, as it does before any fit, or the
    engine's predict raises, predict_next returns None and the world is
    the one before. *)
Theorem predict_collaborator_failure w now venue symbol (h : Z)
    (recent_data : DataFrame) :
  fetch_training_data (redis_client w) now venue symbol 1 = Some recent_data ->
  (sequence_length (self w) <= length recent_data)%nat ->
  ((exists e, transform (scaler (self w))
                (values (tail (sequence_length (self w)) recent_data)) = Raise e)
   \/ (exists scaled_data e,
         transform (scaler (self w))
           (values (tail (sequence_length (self w)) recent_data)) = Ok scaled_data
         /\ predict (model (self w)) [scaled_data] = Raise e)) ->
  predict_next now venue symbol h w = (w, Ok None).
Proof.
  intros Hfetch Hlen Hfail. apply Nat.ltb_ge in Hlen.
  unfold predict_next, try_except, mbind, M_bind, fetch, gets, lift,
    scaler_transform, model_predict.
  rewrite Hfetch, Hlen.
  destruct Hfail as [[e ->] | (scaled_data & e & -> & Hp)]; [done|].
  by rewrite Hp.
Qed.

(** X19: Neither train nor predict_next changes what a later fetch reads. *)
Theorem fetch_unchanged_by_train_and_predict w now venue symbol epochs batch_size
    (h : Z) (now' : Z) (venue' symbol' : string) (lookback_days : Z) :
  fetch_training_data (redis_client (fst (train now venue symbol epochs batch_size w)))
    now' venue' symbol' lookback_days
  = fetch_training_data (redis_client w) now' venue' symbol' lookback_days
  /\ fetch_training_data (redis_client (fst (predict_next now venue symbol h w)))
       now' venue' symbol' lookback_days
     = fetch_training_data (redis_client w) now' venue' symbol' lookback_days.
Proof.
  split.
  - destruct (train now venue symbol epochs batch_size w) as [w' r] eqn:Hrun.
    simpl.
    destruct (train_outcome _ _ _ _ _ _ _ _ Hrun)
      as [_ [(tm & _ & -> & _) | [_ ->]]]; [|done].
    reflexivity.
  - destruct (predict_next now venue symbol h w) as [w' r] eqn:Hrun.
    destruct (predict_next_outcome _ _ _ _ _ _ _ Hrun)
      as [[_ ->] | (p & _ & -> & _)]; [done|].
    reflexivity.
Qed.

End Predicting.

Lemma predict_failure_changes_nothing_witness : ready_world = ready_world.
Proof.
  apply (predict_failure_changes_nothing ready_world 100 "BINANCE" "BTC-USDT" 5 ready_world).
  vm_compute. reflexivity.
Defined.

Lemma predict_touches_prediction_key_only_witness :
  self (fst (predict_next 100 "BINANCE" "BTC-USDT" 5 trained_world)) = self trained_world
  /\ zsets (redis_client (fst (predict_next 100 "BINANCE" "BTC-USDT" 5 trained_world)))
     = zsets (redis_client trained_world)
  /\ (forall k : string, k <> prediction_key "BINANCE" "BTC-USDT" ->
        keys (redis_client (fst (predict_next 100 "BINANCE" "BTC-USDT" 5 trained_world))) !! k
        = keys (redis_client trained_world) !! k)
  /\ (forall venue' symbol' : string,
        keys (redis_client (fst (predict_next 100 "BINANCE" "BTC-USDT" 5 trained_world)))
          !! metrics_key venue' symbol'
        = keys (redis_client trained_world) !! metrics_key venue' symbol').
Proof.
  apply (predict_touches_prediction_key_only trained_world 100 "BINANCE" "BTC-USDT" 5
           (fst (predict_next 100 "BINANCE" "BTC-USDT" 5 trained_world))
           (Ok (Some sample_prediction))).
  vm_compute. reflexivity.
Defined.

Lemma prediction_fields_witness :
  venue sample_prediction = "BINANCE" /\ symbol sample_prediction = "BTC-USDT"
  /\ time_horizon_minutes sample_prediction = 5 /\ prediction_time sample_prediction = 100
  /\ confidence sample_prediction = _calculate_confidence (percent_change sample_prediction).
Proof.
  apply (prediction_fields trained_world 100 "BINANCE" "BTC-USDT" 5
           (fst (predict_next 100 "BINANCE" "BTC-USDT" 5 trained_world))
           sample_prediction).
  vm_compute. reflexivity.
Defined.

Lemma predict_collaborator_failure_witness :
  predict_next 100 "BINANCE" "BTC-USDT" 5 ready_world = (ready_world, Ok None).
Proof.
  apply (predict_collaborator_failure ready_world 100 "BINANCE" "BTC-USDT" 5
           (sample_rows 70)).
  - vm_compute. reflexivity.
  - vm_compute. lia.
  - left. exists NotFittedError. reflexivity.
Defined.

(** ** Construction and loading *)

Section Loading.
Context {Scaler Model : Type} `{!Normalizer Scaler} `{!SequenceEngine Model}.

(** X20: The constructor returns an instance exactly when it is given a path
    that loads; the instance then has a scaler that is not fitted, the
    loaded model and a sequence length of 60. *)
Theorem init_succeeds_iff_loaded (model_path : option string)
    (obj : PricePredictionModel Scaler Model) :
  __init__ model_path = Ok obj
  <-> exists (path : string) (m : Model),
        model_path = Some path
        /\ load_model path = Ok m
        /\ obj = {| scaler := MinMaxScaler; model := m; sequence_length := 60 |}.
Proof.
  split.
  - destruct model_path as [path|]; [|discriminate].
    unfold __init__, _load_model.
    destruct (load_model path) as [m|e] eqn:Hload; [|discriminate].
    simpl. intros [= <-]. by exists path, m.
  - intros (path & m & -> & Hload & ->). by apply init_loaded.
Qed.

(** X21: Once the sequence length is assigned, _build_model returns the model
    for the input shape (sequence_length, 5), and _load_model never raises:
    it returns the loaded model, or the freshly built one when the load
    fails. *)
Theorem load_model_falls_back (self : Attributes Scaler Model) (path : string) (s : nat) :
  attr_sequence_length self = Some s ->
  _build_model self = Ok (Sequential (s, 5%nat))
  /\ (forall m : Model, load_model path = Ok m -> _load_model self path = Ok m)
  /\ ((exists e, load_model path = Raise e) ->
      _load_model self path = Ok (Sequential (s, 5%nat))).
Proof.
  intros Hs. unfold _load_model, _build_model. rewrite Hs.
  split; [reflexivity|]. split.
  - by intros m ->.
  - by intros [e ->].
Qed.

End Loading.

Lemma load_model_falls_back_witness :
  _build_model (Scaler := option ScalerState) (Model := StubModel)
    {| attr_scaler := None; attr_model := None; attr_sequence_length := Some 60%nat |}
  = Ok (Sequential (60%nat, 5%nat))
  /\ (forall m : StubModel,
        load_model "missing.h5" = Ok m ->
        _load_model (Scaler := option ScalerState)
          {| attr_scaler := None; attr_model := None; attr_sequence_length := Some 60%nat |}
          "missing.h5" = Ok m)
  /\ ((exists e, load_model (Model := StubModel) "missing.h5" = Raise e) ->
      _load_model (Scaler := option ScalerState)
        {| attr_scaler := None; attr_model := None; attr_sequence_length := Some 60%nat |}
        "missing.h5" = Ok (Sequential (60%nat, 5%nat))).
Proof.
  apply (load_model_falls_back
           {| attr_scaler := None; attr_model := None; attr_sequence_length := Some 60%nat |}
           "missing.h5" 60).
  reflexivity.
Defined.

(** ** More on the confidence label *)

Lemma float_abs_opp (x : float) : PrimFloat.abs (- x)%float = PrimFloat.abs x.
Proof. apply Prim2SF_inj. rewrite !abs_spec, opp_spec. by destruct (Prim2SF x). Qed.

Lemma SFeqb_refl (s : spec_float) : s <> S754_nan -> SFeqb s s = true.
Proof.
  unfold SFeqb, SFcompare. destruct s as [[]|[]| |[] m e]; try done; intros _.
  all: by rewrite Z.compare_refl, Pos.compare_cont_refl.
Qed.

Lemma float_is_nan (x : float) : PrimFloat.is_nan x = true -> x = nan.
Proof.
  unfold is_nan. rewrite FloatAxioms.eqb_spec. intros H. apply Prim2SF_inj.
  destruct (Prim2SF x) eqn:E; try (rewrite SFeqb_refl in H; [done|done]).
  reflexivity.
Qed.

Lemma float_is_infinity (x : float) :
  PrimFloat.is_infinity x = true -> PrimFloat.abs x = infinity.
Proof.
  unfold is_infinity. rewrite FloatAxioms.eqb_spec. intros H. apply Prim2SF_inj.
  change (Prim2SF infinity) with (S754_infinity false) in *.
  by destruct (Prim2SF (PrimFloat.abs x)) as [[]|[]| |[] m e].
Qed.

(** X22: The label depends on the magnitude alone: a fall and a rise of the
    same size get the same label. *)
Theorem confidence_ignores_sign (percent_change : float) :
  _calculate_confidence (- percent_change)%float = _calculate_confidence percent_change.
Proof. unfold _calculate_confidence. by rewrite float_abs_opp. Qed.

(** X23: The three labels are told apart by the two strict comparisons: low
    exactly above 5.0, medium exactly above 2.0 and not above 5.0, high
    exactly when not above 2.0 (and not above 5.0, which NaN also meets). *)
Theorem confidence_label_cases (percent_change : float) :
  (_calculate_confidence percent_change = "low"
   <-> (5.0 <? PrimFloat.abs percent_change)%float = true)
  /\ (_calculate_confidence percent_change = "medium"
      <-> (5.0 <? PrimFloat.abs percent_change)%float = false
          /\ (2.0 <? PrimFloat.abs percent_change)%float = true)
  /\ (_calculate_confidence percent_change = "high"
      <-> (5.0 <? PrimFloat.abs percent_change)%float = false
          /\ (2.0 <? PrimFloat.abs percent_change)%float = false).
Proof.
  unfold _calculate_confidence.
  destruct (5.0 <? PrimFloat.abs percent_change)%float;
    destruct (2.0 <? PrimFloat.abs percent_change)%float;
    repeat split; try done; intros H; try discriminate H; by destruct H.
Qed.

(** X24: A percent change that is not a number, as for a current price and a
    predicted price of zero, is labelled high, and an infinite one, as for
    a current price of zero otherwise, is labelled low. *)
Theorem confidence_not_finite (percent_change : float) :
  (PrimFloat.is_nan percent_change = true ->
   _calculate_confidence percent_change = "high")
  /\ (PrimFloat.is_infinity percent_change = true ->
      _calculate_confidence percent_change = "low").
Proof.
  split.
  - intros Hnan. by rewrite (float_is_nan _ Hnan).
  - intros Hinf. unfold _calculate_confidence. by rewrite (float_is_infinity _ Hinf).
Qed.

Lemma confidence_not_finite_witness :
  _calculate_confidence ((0 - 0) / 0 * 100)%float = "high"
  /\ _calculate_confidence ((4 - 0) / 0 * 100)%float = "low"
  /\ _calculate_confidence ((0 - 4) / 0 * 100)%float = "low".
Proof.
  split; [|split].
  - apply (confidence_not_finite ((0 - 0) / 0 * 100)%float). reflexivity.
  - apply (confidence_not_finite ((4 - 0) / 0 * 100)%float). reflexivity.
  - apply (confidence_not_finite ((0 - 4) / 0 * 100)%float). reflexivity.
Defined.

(** ** The split of train *)

Lemma split_agrees_from_spec (fuel : nat) :
  forall z k : Z,
    split_agrees_from fuel z = true ->
    z <= k < z + Z.of_nat fuel ->
    split_agrees k = true.
Proof.
  induction fuel as [|fuel IH]; intros z k Hall Hk; [lia|].
  simpl in Hall. apply andb_true_iff in Hall as [Hz Hrest].
  destruct (decide (k = z)) as [->|Hne]; [done|].
  apply (IH (z + 1)); [done|lia].
Qed.

(** X13: For up to 50000 windows, int(len(X) * 0.8) does not raise and is the
    floor of four fifths of the number of windows: the first four fifths
    of the windows train the engine and the rest validate it. *)
Theorem split_index_is_four_fifths (n : nat) :
  Z.of_nat n <= 50000 ->
  py_int (float_of_nat n * 0.8)%float = Ok (4 * Z.of_nat n / 5).
Proof.
  intros Hn.
  assert (split_agrees (Z.of_nat n) = true) as Hagree.
  { apply (split_agrees_from_spec (Z.to_nat 50001) 0); [by vm_compute|lia]. }
  unfold split_agrees in Hagree. unfold float_of_nat.
  destruct (py_int _) as [i|e]; [|discriminate].
  apply Z.eqb_eq in Hagree. by rewrite Hagree.
Qed.

Lemma split_index_is_four_fifths_witness :
  py_int (float_of_nat 10 * 0.8)%float = Ok (4 * Z.of_nat 10 / 5).
Proof. apply (split_index_is_four_fifths 10). simpl. lia. Defined.
